(** * Go-Dynamo-Echo: the REST-to-table mapping of [main.go]

    A shallow embedding of the five HTTP handlers of [main.go], of the
    middleware stack and route table that [main] installs, and of the
    remote table the handlers talk to, followed by the properties the
    specification states about them. *)

From Stdlib Require Import ZArith Ascii String List DecimalString DecimalZ.
From stdpp Require Import gmap strings list fin_maps.

Open Scope Z_scope.

(** ** Data model *)

(** [type User struct { ID string; Name string; Age int }], with the JSON
    field names [id], [name], [age].  Go's [int] is read as an integer;
    the handlers never do arithmetic on it. *)
Record User := mkUser { ID : string; Name : string; Age : Z }.

(** [dynamodb.AttributeValue]: a struct of pointer fields, exactly one of
    which the service sets.  A field that is not set is a nil pointer,
    [None] here.  [N] carries a number as its decimal text. *)
Record AttributeValue := mkAttr {
  av_S : option string;
  av_N : option string;
  av_BOOL : option bool
}.

(** [{S: aws.String(s)}] and [{N: aws.String(s)}]. *)
Definition attr_S (s : string) : AttributeValue :=
  {| av_S := Some s; av_N := None; av_BOOL := None |}.
Definition attr_N (s : string) : AttributeValue :=
  {| av_S := None; av_N := Some s; av_BOOL := None |}.
Definition attr_BOOL (b : bool) : AttributeValue :=
  {| av_S := None; av_N := None; av_BOOL := Some b |}.

(** [map[string]*dynamodb.AttributeValue]: indexing with a key that is not
    present gives the nil pointer, [None] here. *)
Abbreviation Item := (gmap string AttributeValue).

(** A Go slice value: [None] is the nil slice that [var users []User]
    declares, [Some l] a slice with backing store. *)
Definition slice (A : Type) : Type := option (list A).

Definition append {A : Type} (s : slice A) (x : A) : slice A :=
  match s with
  | None => Some [x]
  | Some l => Some (l ++ [x])
  end.

(** ** JSON documents, as [encoding/json] writes them *)

#[warnings="-register-all"]
Inductive JSON :=
| JNull
| JNum (n : Z)
| JStr (s : string)
| JArr (l : list JSON)
| JObj (fields : list (string * JSON)).

(** A [User] is written as an object with its three tagged fields. *)
Definition marshal_User (u : User) : JSON :=
  JObj [("id", JStr (ID u)); ("name", JStr (Name u)); ("age", JNum (Age u))].

(** A [[]User]: the nil slice is written as [null], any other slice as an
    array. *)
Definition marshal_Users (s : slice User) : JSON :=
  match s with
  | None => JNull
  | Some l => JArr (map marshal_User l)
  end.

(** [fmt.Sprintf("%d", n)]. *)
Definition Sprintf_d (n : Z) : string := NilZero.string_of_int (Z.to_int n).

(** [strconv.Atoi], with [0] where it reports an error.  The handlers do
    not call it; it is the reading of a number text that the examples
    compare the handlers' conversion with. *)
Definition Atoi (s : string) : Z :=
  match NilZero.int_of_string s with
  | Some d => Z.of_int d
  | None => 0
  end.

(** ** HTTP side *)

Definition StatusOK : Z := 200.
Definition StatusCreated : Z := 201.
Definition StatusNoContent : Z := 204.
Definition StatusBadRequest : Z := 400.
Definition StatusNotFound : Z := 404.
Definition StatusInternalServerError : Z := 500.

(** What the client receives: a status and a JSON body, or no body. *)
Record Response := mkResponse { status : Z; body : option JSON }.

(** What a handler hands back to the framework: it has written a response
    and returns nil, or it returns an [*echo.HTTPError]. *)
Inductive HandlerResult :=
| Wrote (r : Response)
| HTTPError (code : Z) (message : string).

Definition NewHTTPError (code : Z) (message : string) : HandlerResult :=
  HTTPError code message.

(** The request body, by what [c.Bind] makes of it: an error, or the
    [User] it decodes into. *)
Inductive Body :=
| Undecodable (err : string)
| Decodes (u : User).

(** [echo.Context]: the method of the request, the path of the route it
    matched, the path parameters and the body. *)
Record Context := mkContext {
  ctx_method : string;
  ctx_path : string;
  params : gmap string string;
  req_body : Body
}.

(** [c.Param(name)]: the empty string when the route has no such
    parameter. *)
Definition Param (c : Context) (name : string) : string :=
  default "" (params c !! name).

(** ** The world outside the process *)

(** The remote table, keyed by the text of the [id] attribute, with the
    operations the process has sent to the service, and the lines the
    process has written: [stderr] by package [log], [stdout] by
    [fmt.Println], [access] by the logging middleware (method, route and
    the status answered). *)
Record World := mkWorld {
  table : gmap string Item;
  calls : list string;
  stderr : list string;
  stdout : list string;
  access : list (string * string * Z)
}.

Definition set_table (t : gmap string Item) (w : World) : World :=
  {| table := t; calls := calls w; stderr := stderr w; stdout := stdout w;
     access := access w |}.
Definition record_call (op : string) (w : World) : World :=
  {| table := table w; calls := calls w ++ [op]; stderr := stderr w;
     stdout := stdout w; access := access w |}.
Definition log_line (l : string) (w : World) : World :=
  {| table := table w; calls := calls w; stderr := stderr w ++ [l];
     stdout := stdout w; access := access w |}.
Definition print_line (l : string) (w : World) : World :=
  {| table := table w; calls := calls w; stderr := stderr w;
     stdout := stdout w ++ [l]; access := access w |}.
Definition access_line (l : string * string * Z) (w : World) : World :=
  {| table := table w; calls := calls w; stderr := stderr w;
     stdout := stdout w; access := access w ++ [l] |}.

(** What the surroundings decide while one request is handled: the error
    [session.NewSession] returns, if any, and the error the table service
    answers the handler's call with, if any (network, permission,
    throttling, a rejected parameter). *)
Record Env := mkEnv { session_err : option string; store_err : option string }.

Definition healthy : Env := {| session_err := None; store_err := None |}.

(** ** Computations of the process *)

(** A computation ends normally, unwinds with a panic, or ends the whole
    process ([os.Exit]). *)
Inductive Outcome (A : Type) :=
| Normal (a : A)
| Panicked (v : string)
| Exited (code : Z).
Arguments Normal {A} a.
Arguments Panicked {A} v.
Arguments Exited {A} code.

Definition M (A : Type) : Type := Env -> World -> Outcome A * World.

Definition ret {A : Type} (a : A) : M A := fun _ w => (Normal a, w).

Definition bind {A B : Type} (m : M A) (k : A -> M B) : M B :=
  fun env w =>
    match m env w with
    | (Normal a, w') => k a env w'
    | (Panicked v, w') => (Panicked v, w')
    | (Exited code, w') => (Exited code, w')
    end.

Declare Scope go_scope.
Delimit Scope go_scope with go.
Notation "'do' x <- m 'in' k" := (bind m (fun x => k))
  (at level 10, x name, m at level 100, k at level 200,
   format "'[v' 'do'  x  <-  m  'in' '/' k ']'") : go_scope.
Notation "'run' m 'in' k" := (bind m (fun _ => k))
  (at level 10, m at level 100, k at level 200,
   format "'[v' 'run'  m  'in' '/' k ']'") : go_scope.
Open Scope go_scope.

(** A Go function result [(value, err)]. *)
Inductive result (A : Type) :=
| Ok (a : A)
| Err (err : string).
Arguments Ok {A} a.
Arguments Err {A} err.

(** [*p]: a nil pointer makes the runtime panic. *)
Definition nil_deref : string :=
  "runtime error: invalid memory address or nil pointer dereference".

Definition deref {A : Type} (p : option A) : M A :=
  match p with
  | Some a => ret a
  | None => fun _ w => (Panicked nil_deref, w)
  end.

(** [*item[k].S] and [*item[k].N]: the field is read through the pointer
    the map gives, then the field's own pointer is followed. *)
Definition deref_S (p : option AttributeValue) : M string :=
  do av <- deref p in deref (av_S av).
Definition deref_N (p : option AttributeValue) : M string :=
  do av <- deref p in deref (av_N av).

(** [log.Println(a, b)]: the operands with a space between them ([log]'s
    time stamp is left out). *)
Definition log_Println (a b : string) : M unit :=
  fun _ w => (Normal tt, log_line (a +:+ " " +:+ b) w).

(** [log.Fatal(a, err)]: the operands as [fmt.Sprint] joins them (no space
    after an operand that is a string), then [os.Exit(1)]. *)
Definition log_Fatal {A : Type} (a err : string) : M A :=
  fun _ w => (Exited 1, log_line (a +:+ err) w).

(** [for _, x := range l { acc = body(acc, x) }]. *)
Fixpoint for_range {A B : Type} (l : list A) (body : B -> A -> M B) (acc : B) : M B :=
  match l with
  | [] => ret acc
  | x :: l' => do acc' <- body acc x in for_range l' body acc'
  end.

(** ** The table service *)

(** [*dynamodb.DynamoDB], the client handle. *)
Record DynamoDB := mkClient { Region : string }.

Record ScanInput := mkScanInput { Scan_TableName : string }.
Record ScanOutput := mkScanOutput { Items : list Item }.

Record GetItemInput := mkGetItemInput {
  GetItem_TableName : string;
  GetItem_Key : Item
}.
(** [Item] is the nil map, [None] here, when the table holds no item
    under the key. *)
Record GetItemOutput := mkGetItemOutput { GetItem_Item : option Item }.

Record PutItemInput := mkPutItemInput {
  PutItem_TableName : string;
  PutItem_Item : Item
}.

Record UpdateItemInput := mkUpdateItemInput {
  UpdateItem_TableName : string;
  UpdateItem_Key : Item;
  UpdateExpression : string;
  ExpressionAttributeNames : gmap string string;
  ExpressionAttributeValues : gmap string AttributeValue
}.

Record DeleteItemInput := mkDeleteItemInput {
  DeleteItem_TableName : string;
  DeleteItem_Key : Item
}.

(** The one table of the service, and the text of its key attribute in a
    key or an item. *)
Definition users_table : string := "users".

Definition key_text (k : Item) : option string :=
  match k !! "id" with
  | Some av => av_S av
  | None => None
  end.

(** One call to the service: it is sent, and answered with the error the
    surroundings decided on, with a missing table, or with the outcome of
    the operation on the table. *)
Definition call {A : Type} (op_name tname : string)
    (op : gmap string Item -> result A * gmap string Item) : M (result A) :=
  fun env w =>
    let w := record_call op_name w in
    match store_err env with
    | Some err => (Normal (Err err), w)
    | None =>
        if decide (tname = users_table)
        then let '(r, t) := op (table w) in (Normal r, set_table t w)
        else (Normal (Err "ResourceNotFoundException"), w)
    end.

Definition ValidationException {A : Type} : result A := Err "ValidationException".

(** [Scan] without a filter: every item of the table (a table whose
    items fit the one page of results the handler reads). *)
Definition Scan (svc : DynamoDB) (input : ScanInput) : M (result ScanOutput) :=
  call "Scan" (Scan_TableName input)
    (fun t => (Ok {| Items := (map_to_list t).*2 |}, t)).

(** [GetItem]: the item under the key, if there is one. *)
Definition GetItem (svc : DynamoDB) (input : GetItemInput) : M (result GetItemOutput) :=
  call "GetItem" (GetItem_TableName input)
    (fun t =>
       match key_text (GetItem_Key input) with
       | Some k => (Ok {| GetItem_Item := t !! k |}, t)
       | None => (ValidationException, t)
       end).

(** [PutItem]: the item replaces whatever the table held under its key. *)
Definition PutItem (svc : DynamoDB) (input : PutItemInput) : M (result unit) :=
  call "PutItem" (PutItem_TableName input)
    (fun t =>
       match key_text (PutItem_Item input) with
       | Some k => (Ok tt, <[k := PutItem_Item input]> t)
       | None => (ValidationException, t)
       end).

(** [DeleteItem]: the key is free afterwards, whether it was taken or
    not. *)
Definition DeleteItem (svc : DynamoDB) (input : DeleteItemInput) : M (result unit) :=
  call "DeleteItem" (DeleteItem_TableName input)
    (fun t =>
       match key_text (DeleteItem_Key input) with
       | Some k => (Ok tt, delete k t)
       | None => (ValidationException, t)
       end).

(** Update expressions of the form [set p = v, p = v, ...]: the clauses
    as pairs of a name placeholder and a value placeholder. *)
Fixpoint space_out (s : string) : string :=
  match s with
  | EmptyString => EmptyString
  | String c s' =>
      if bool_decide (c = ","%char \/ c = "="%char)
      then String " " (String c (String " " (space_out s')))
      else String c (space_out s')
  end.

Fixpoint parse_actions (toks : list string) : option (list (string * string)) :=
  match toks with
  | [p; eq; v] =>
      if decide (eq = "=") then Some [(p, v)] else None
  | p :: eq :: v :: comma :: rest =>
      if decide (eq = "=" /\ comma = ",")
      then option_map (cons (p, v)) (parse_actions rest)
      else None
  | _ => None
  end.

Definition parse_update (e : string) : option (list (string * string)) :=
  match String.words (space_out e) with
  | kw :: toks =>
      if decide (kw = "set" \/ kw = "SET") then parse_actions toks else None
  | [] => None
  end.

(** One [set] clause on an item: both placeholders must be declared. *)
Definition apply_set (names : gmap string string)
    (values : gmap string AttributeValue) (it : option Item)
    (a : string * string) : option Item :=
  match it, names !! a.1, values !! a.2 with
  | Some i, Some n, Some v => Some (<[n := v]> i)
  | _, _, _ => None
  end.

(** [UpdateItem]: the clauses are applied to the item under the key, or,
    when there is none, to a new item that holds the key alone; the
    outcome is stored under the key. *)
Definition UpdateItem (svc : DynamoDB) (input : UpdateItemInput) : M (result unit) :=
  call "UpdateItem" (UpdateItem_TableName input)
    (fun t =>
       match key_text (UpdateItem_Key input),
             parse_update (UpdateExpression input) with
       | Some k, Some acts =>
           let old := default (UpdateItem_Key input) (t !! k) in
           match fold_left (apply_set (ExpressionAttributeNames input)
                                      (ExpressionAttributeValues input))
                           acts (Some old) with
           | Some it => (Ok tt, <[k := it]> t)
           | None => (ValidationException, t)
           end
       | _, _ => (ValidationException, t)
       end).

(** ** The handlers of [main.go] *)

(** [c.JSON(code, v)] with [v] already written as a document, and
    [c.NoContent(code)]. *)
Definition c_JSON (code : Z) (v : JSON) : M HandlerResult :=
  ret (Wrote {| status := code; body := Some v |}).
Definition c_NoContent (code : Z) : M HandlerResult :=
  ret (Wrote {| status := code; body := None |}).

(** [c.Bind(user)] on [user := new(User)]. *)
Definition c_Bind (c : Context) : M (result User) :=
  ret (match req_body c with
       | Undecodable err => Err err
       | Decodes u => Ok u
       end).

(** [getDynamoDBClient]: a session for the fixed region, and a client on
    it; an error of [session.NewSession] ends the process. *)
Definition getDynamoDBClient : M DynamoDB :=
  fun env w =>
    match session_err env with
    | Some err => log_Fatal "Failed to create AWS session:" err env w
    | None => ret {| Region := "us-east-1" |} env w
    end.

Definition Handler : Type := Context -> M HandlerResult.

Section Handlers.

(** The two reading handlers turn the number text of [age] into an [int]
    with the type conversion [int(...)].  Go has no conversion from a
    string to an integer type, so the source fixes no value for it: the
    conversion is a parameter here, and what is proved holds for every
    choice of it. *)
Variable int_conv : string -> Z.

(** The [User] literal both reading handlers build from an item, field by
    field. *)
Definition user_of_item (item : Item) : M User :=
  do id <- deref_S (item !! "id") in
  do name <- deref_S (item !! "name") in
  do age <- deref_N (item !! "age") in
  ret {| ID := id; Name := name; Age := int_conv age |}.

(** [getUsers]: retrieve all users. *)
Definition getUsers : Handler := fun c =>
  do svc <- getDynamoDBClient in
  let input := {| Scan_TableName := "users" |} in
  do r <- Scan svc input in
  match r with
  | Err err =>
      run log_Println "Failed to retrieve users:" err in
      ret (NewHTTPError StatusInternalServerError "Failed to retrieve users")
  | Ok result =>
      do users <- for_range (Items result)
                    (fun users item =>
                       do user <- user_of_item item in
                       ret (append users user))
                    None in
      c_JSON StatusOK (marshal_Users users)
  end.

(** [getUser]: retrieve a user by id. *)
Definition getUser : Handler := fun c =>
  do svc <- getDynamoDBClient in
  let id := Param c "id" in
  let input := {| GetItem_TableName := "users";
                  GetItem_Key := {[ "id" := attr_S id ]} |} in
  do r <- GetItem svc input in
  match r with
  | Err err =>
      run log_Println "Failed to retrieve user:" err in
      ret (NewHTTPError StatusInternalServerError "Failed to retrieve user")
  | Ok result =>
      match GetItem_Item result with
      | None => ret (NewHTTPError StatusNotFound "User not found")
      | Some item =>
          do user <- user_of_item item in
          c_JSON StatusOK (marshal_User user)
      end
  end.

(** [createUser]: create a new user. *)
Definition createUser : Handler := fun c =>
  do svc <- getDynamoDBClient in
  do b <- c_Bind c in
  match b with
  | Err _ => ret (NewHTTPError StatusBadRequest "Invalid request payload")
  | Ok user =>
      let input :=
        {| PutItem_TableName := "users";
           PutItem_Item :=
             {[ "id" := attr_S (ID user);
                "name" := attr_S (Name user);
                "age" := attr_N (Sprintf_d (Age user)) ]} |} in
      do r <- PutItem svc input in
      match r with
      | Err err =>
          run log_Println "Failed to create user:" err in
          ret (NewHTTPError StatusInternalServerError "Failed to create user")
      | Ok _ => c_JSON StatusCreated (marshal_User user)
      end
  end.

(** [updateUser]: update an existing user. *)
Definition updateUser : Handler := fun c =>
  do svc <- getDynamoDBClient in
  let id := Param c "id" in
  do b <- c_Bind c in
  match b with
  | Err _ => ret (NewHTTPError StatusBadRequest "Invalid request payload")
  | Ok user =>
      let input :=
        {| UpdateItem_TableName := "users";
           UpdateItem_Key := {[ "id" := attr_S id ]};
           UpdateExpression := "set #n = :n, #a = :a";
           ExpressionAttributeNames := {[ "#n" := "name"; "#a" := "age" ]};
           ExpressionAttributeValues :=
             {[ ":n" := attr_S (Name user);
                ":a" := attr_N (Sprintf_d (Age user)) ]} |} in
      do r <- UpdateItem svc input in
      match r with
      | Err err =>
          run log_Println "Failed to update user:" err in
          ret (NewHTTPError StatusInternalServerError "Failed to update user")
      | Ok _ => c_JSON StatusOK (marshal_User user)
      end
  end.

(** [deleteUser]: delete a user. *)
Definition deleteUser : Handler := fun c =>
  do svc <- getDynamoDBClient in
  let id := Param c "id" in
  let input := {| DeleteItem_TableName := "users";
                  DeleteItem_Key := {[ "id" := attr_S id ]} |} in
  do r <- DeleteItem svc input in
  match r with
  | Err err =>
      run log_Println "Failed to delete user:" err in
      ret (NewHTTPError StatusInternalServerError "Failed to delete user")
  | Ok _ => c_NoContent StatusNoContent
  end.

(** ** The framework around the handlers *)

(** Echo's default error handler: a handler's [*echo.HTTPError] becomes a
    response with its code and a [message] document. *)
Definition DefaultHTTPErrorHandler (r : HandlerResult) : Response :=
  match r with
  | Wrote resp => resp
  | HTTPError code message =>
      {| status := code; body := Some (JObj [("message", JStr message)]) |}
  end.

(** [middleware.Recover()]: a panic of the wrapped handler is caught and
    handed to the error handler as a plain error, which answers 500. *)
Definition Recover (next : Handler) : Handler := fun c env w =>
  match next c env w with
  | (Panicked _, w') =>
      (Normal (HTTPError StatusInternalServerError "Internal Server Error"), w')
  | other => other
  end.

(** [middleware.Logger()]: one access line per answered request. *)
Definition Logger (next : Handler) : Handler := fun c env w =>
  match next c env w with
  | (Normal r, w') =>
      (Normal r,
       access_line (ctx_method c, ctx_path c, status (DefaultHTTPErrorHandler r)) w')
  | other => other
  end.

(** [e.Use(...)]: the first middleware registered is the outermost. *)
Definition applyMiddleware (h : Handler) (ms : list (Handler -> Handler)) : Handler :=
  fold_right (fun m next => m next) h ms.

Definition middleware : list (Handler -> Handler) := [Logger; Recover].

(** The route table of [main]. *)
Definition routes : list (string * string * Handler) :=
  [ ("GET", "/users", getUsers);
    ("GET", "/users/:id", getUser);
    ("POST", "/users", createUser);
    ("PUT", "/users/:id", updateUser);
    ("DELETE", "/users/:id", deleteUser) ].

Definition NotFoundHandler : Handler := fun _ =>
  ret (NewHTTPError StatusNotFound "Not Found").

Definition find_route (method path : string) : Handler :=
  match find (fun r => bool_decide (r.1.1 = method /\ r.1.2 = path)) routes with
  | Some r => r.2
  | None => NotFoundHandler
  end.

(** One request through the stack: the routed handler inside the
    middleware, and the response the client gets. *)
Definition ServeHTTP (c : Context) : M Response :=
  do r <- applyMiddleware (find_route (ctx_method c) (ctx_path c)) middleware c in
  ret (DefaultHTTPErrorHandler r).

(** The process: it is running with the world it has reached, or it has
    ended with an exit code. *)
Inductive Proc :=
| Running (w : World)
| Halted (code : Z) (w : World).

(** The serving loop of [e.Start]: the requests in the order they arrive,
    each with what the surroundings decide while it is handled, and for
    each request handled the response sent, or [None] when a panic
    escapes the stack (the connection is dropped and serving goes on).
    Nothing is handled once the process has ended. *)
Fixpoint serve (reqs : list (Env * Context)) (w : World)
    : list (option Response) * Proc :=
  match reqs with
  | [] => ([], Running w)
  | (env, c) :: reqs' =>
      match ServeHTTP c env w with
      | (Normal resp, w') =>
          let '(resps, p) := serve reqs' w' in (Some resp :: resps, p)
      | (Panicked _, w') =>
          let '(resps, p) := serve reqs' w' in (None :: resps, p)
      | (Exited code, w') => ([], Halted code w')
      end
  end.

(** [main]: the stack and the routes are set up, the start line is
    printed, and the server serves. *)
Definition main (reqs : list (Env * Context)) (w : World)
    : list (option Response) * Proc :=
  serve reqs (print_line "Server started on port 8000" w).

End Handlers.

(** Contexts of the five routes. *)
Definition no_body : Body := Undecodable "EOF".

Definition GET_users : Context :=
  {| ctx_method := "GET"; ctx_path := "/users"; params := ∅; req_body := no_body |}.
Definition GET_user (id : string) : Context :=
  {| ctx_method := "GET"; ctx_path := "/users/:id";
     params := {[ "id" := id ]}; req_body := no_body |}.
Definition POST_users (b : Body) : Context :=
  {| ctx_method := "POST"; ctx_path := "/users"; params := ∅; req_body := b |}.
Definition PUT_user (id : string) (b : Body) : Context :=
  {| ctx_method := "PUT"; ctx_path := "/users/:id";
     params := {[ "id" := id ]}; req_body := b |}.
Definition DELETE_user (id : string) : Context :=
  {| ctx_method := "DELETE"; ctx_path := "/users/:id";
     params := {[ "id" := id ]}; req_body := no_body |}.

Definition empty_world : World :=
  {| table := ∅; calls := []; stderr := []; stdout := []; access := [] |}.

(** Surroundings in which the session is built and the call to the
    service is answered with [err], and surroundings in which the session
    cannot be built. *)
Definition store_down (err : string) : Env :=
  {| session_err := None; store_err := Some err |}.
Definition no_session (err : string) : Env :=
  {| session_err := Some err; store_err := None |}.


(** ** What an item holds, read without effects *)

(** The text of a string attribute and of a number attribute of an item,
    when the item has the attribute in that form. *)
Definition text_S (item : Item) (k : string) : option string :=
  match item !! k with Some av => av_S av | None => None end.
Definition text_N (item : Item) (k : string) : option string :=
  match item !! k with Some av => av_N av | None => None end.

(** An item is a user record when it has [id] and [name] as strings and
    [age] as a number. *)
Definition user_record (item : Item) : Prop :=
  is_Some (text_S item "id") /\ is_Some (text_S item "name") /\
  is_Some (text_N item "age").

(** The [User] an item maps to under a conversion, if it is a user
    record. *)
Definition item_user (int_conv : string -> Z) (item : Item) : option User :=
  match text_S item "id", text_S item "name", text_N item "age" with
  | Some id, Some name, Some age =>
      Some {| ID := id; Name := name; Age := int_conv age |}
  | _, _, _ => None
  end.

(** The slice the loop of [getUsers] builds from a list of items, if all
    of them are user records. *)
Fixpoint items_users (int_conv : string -> Z) (items : list Item)
    (acc : slice User) : option (slice User) :=
  match items with
  | [] => Some acc
  | item :: items' =>
      match item_user int_conv item with
      | Some u => items_users int_conv items' (append acc u)
      | None => None
      end
  end.

(** The item [createUser] writes for a user. *)
Definition item_of_user (u : User) : Item :=
  {[ "id" := attr_S (ID u);
     "name" := attr_S (Name u);
     "age" := attr_N (Sprintf_d (Age u)) ]}.

(** The five operations, the handler of each, and the message each
    answers a failed call with. *)
Inductive Operation := List_op | Get_op | Create_op | Update_op | Delete_op.

Definition handler_of (int_conv : string -> Z) (op : Operation) : Handler :=
  match op with
  | List_op => getUsers int_conv
  | Get_op => getUser int_conv
  | Create_op => createUser
  | Update_op => updateUser
  | Delete_op => deleteUser
  end.

Definition failure_message (op : Operation) : string :=
  match op with
  | List_op => "Failed to retrieve users"
  | Get_op => "Failed to retrieve user"
  | Create_op => "Failed to create user"
  | Update_op => "Failed to update user"
  | Delete_op => "Failed to delete user"
  end.

Definition call_name (op : Operation) : string :=
  match op with
  | List_op => "Scan"
  | Get_op => "GetItem"
  | Create_op => "PutItem"
  | Update_op => "UpdateItem"
  | Delete_op => "DeleteItem"
  end.

Definition context_of (op : Operation) (id : string) (b : Body) : Context :=
  match op with
  | List_op => GET_users
  | Get_op => GET_user id
  | Create_op => POST_users b
  | Update_op => PUT_user id b
  | Delete_op => DELETE_user id
  end.

(** The world after the access line of a response, and the response the
    stack sends for a panic it has caught. *)
Definition answered (c : Context) (code : Z) (w : World) : World :=
  access_line (ctx_method c, ctx_path c, code) w.

Definition internal_error : Response :=
  {| status := 500; body := Some (JObj [("message", JStr "Internal Server Error")]) |}.

(** A request of one of the five routes, and the statuses each operation
    can answer with. *)
Definition routed (c : Context) : Prop :=
  exists (op : Operation) (id : string) (b : Body), c = context_of op id b.

Definition statuses_of (op : Operation) : list Z :=
  match op with
  | List_op => [200; 500]
  | Get_op => [200; 404; 500]
  | Create_op => [201; 400; 500]
  | Update_op => [200; 400; 500]
  | Delete_op => [204; 500]
  end.

(** What the stack of [main] makes of the outcome of a handler: the
    response of the error handler with its access line, the 500 of a
    caught panic with its access line, or the end of the process. *)
Definition through_stack (c : Context) (r : Outcome HandlerResult * World)
    : Outcome Response * World :=
  match r with
  | (Normal hr, w') =>
      (Normal (DefaultHTTPErrorHandler hr),
       answered c (status (DefaultHTTPErrorHandler hr)) w')
  | (Panicked _, w') => (Normal internal_error, answered c 500 w')
  | (Exited code, w') => (Exited code, w')
  end.

(** The item an Update with body [u] leaves where [old] was held. *)
Definition updated_item (u : User) (old : Item) : Item :=
  <["age" := attr_N (Sprintf_d (Age u))]> (<["name" := attr_S (Name u)]> old).

(** The key a request writes under, if it gets to write, and whether it
    gets to send its call at all. *)
Definition written_key (op : Operation) (id : string) (b : Body) : option string :=
  match op, b with
  | Create_op, Decodes u => Some (ID u)
  | Update_op, Decodes _ => Some id
  | Delete_op, _ => Some id
  | _, _ => None
  end.

Definition call_sent (op : Operation) (b : Body) (env : Env) : bool :=
  match session_err env, op, b with
  | Some _, _, _ => false
  | None, (Create_op | Update_op), Undecodable _ => false
  | None, _, _ => true
  end.

(** ** Equations of the table service *)

Example parse_update_main :
  parse_update "set #n = :n, #a = :a" = Some [("#n", ":n"); ("#a", ":a")].
Proof. vm_compute. reflexivity. Qed.

Lemma key_text_id (id : string) : key_text {[ "id" := attr_S id ]} = Some id.
Proof. unfold key_text. by rewrite lookup_singleton_eq. Qed.

Lemma key_text_insert (id : string) (it : Item) :
  key_text (<["id" := attr_S id]> it) = Some id.
Proof. unfold key_text. by rewrite lookup_insert_eq. Qed.

(** A call that the service answers runs the operation on the table. *)
Lemma call_answered {A : Type} (op_name : string)
    (op : gmap string Item -> result A * gmap string Item) (env : Env) (w : World) :
  store_err env = None ->
  call op_name "users" op env w =
    (Normal (op (table w)).1, set_table (op (table w)).2 (record_call op_name w)).
Proof.
  intros Hok. unfold call. rewrite Hok.
  destruct (decide ("users" = users_table)) as [_|Hne]; [|by destruct Hne].
  simpl. by destruct (op (table w)).
Qed.

(** A call that fails is sent, and leaves the table as it was. *)
Lemma call_failed {A : Type} (op_name tname : string)
    (op : gmap string Item -> result A * gmap string Item) (env : Env) (w : World)
    (err : string) :
  store_err env = Some err ->
  call op_name tname op env w = (Normal (Err err), record_call op_name w).
Proof. intros Hko. unfold call. by rewrite Hko. Qed.

Lemma getDynamoDBClient_ok (env : Env) (w : World) :
  session_err env = None ->
  getDynamoDBClient env w = (Normal {| Region := "us-east-1" |}, w).
Proof. intros Hok. unfold getDynamoDBClient. by rewrite Hok. Qed.

Lemma getDynamoDBClient_fatal (env : Env) (w : World) (err : string) :
  session_err env = Some err ->
  getDynamoDBClient env w =
    (Exited 1, log_line ("Failed to create AWS session:" +:+ err) w).
Proof. intros Hko. unfold getDynamoDBClient. by rewrite Hko. Qed.

(** The clauses of [updateUser] on an item. *)
Lemma update_clauses (name age : AttributeValue) (old : Item) :
  fold_left (apply_set {[ "#n" := "name"; "#a" := "age" ]}
                       {[ ":n" := name; ":a" := age ]})
            [("#n", ":n"); ("#a", ":a")] (Some old)
  = Some (<["age" := age]> (<["name" := name]> old)).
Proof.
  cbn [fold_left]. unfold apply_set; cbn [fst snd].
  rewrite !lookup_insert_eq.
  rewrite !lookup_insert_ne by done. by rewrite !lookup_singleton_eq.
Qed.

(** ** Equations of the handlers *)

Section Runs.

Variable int_conv : string -> Z.

(** The [User] literal: the user the item maps to, or the panic of the
    first nil pointer followed. *)
Lemma user_of_item_run (item : Item) (env : Env) (w : World) :
  user_of_item int_conv item env w =
    (match item_user int_conv item with
     | Some u => Normal u
     | None => Panicked nil_deref
     end, w).
Proof.
  unfold user_of_item, item_user, text_S, text_N, deref_S, deref_N, bind, deref, ret.
  destruct (item !! "id") as [[[id|] ? ?]|]; simpl; try reflexivity.
  destruct (item !! "name") as [[[name|] ? ?]|]; simpl; try reflexivity.
  destruct (item !! "age") as [[? [age|] ?]|]; reflexivity.
Qed.

(** The loop of [getUsers], by induction on the items. *)
Lemma for_range_users (items : list Item) (acc : slice User) (env : Env) (w : World) :
  for_range items
    (fun users item => do user <- user_of_item int_conv item in ret (append users user))
    acc env w =
    (match items_users int_conv items acc with
     | Some s => Normal s
     | None => Panicked nil_deref
     end, w).
Proof.
  revert acc. induction items as [|item items IH]; intros acc; [reflexivity|].
  cbn [for_range items_users]. unfold bind at 1 2. rewrite user_of_item_run.
  destruct (item_user int_conv item) as [u|]; [|reflexivity].
  unfold ret at 1. apply IH.
Qed.

Lemma getUsers_run (c : Context) (env : Env) (w : World) :
  session_err env = None -> store_err env = None ->
  getUsers int_conv c env w =
    (match items_users int_conv (map_to_list (table w)).*2 None with
     | Some s => Normal (Wrote {| status := 200; body := Some (marshal_Users s) |})
     | None => Panicked nil_deref
     end, record_call "Scan" w).
Proof.
  intros Hs Hc. unfold getUsers, bind at 1 2, Scan.
  rewrite getDynamoDBClient_ok, call_answered by done. cbn [fst snd Items].
  unfold bind. rewrite for_range_users. cbn [table record_call].
  destruct (items_users _ _ _); reflexivity.
Qed.

Lemma getUser_run (c : Context) (env : Env) (w : World) :
  session_err env = None -> store_err env = None ->
  getUser int_conv c env w =
    (match table w !! Param c "id" with
     | None => Normal (HTTPError 404 "User not found")
     | Some item =>
         match item_user int_conv item with
         | Some u => Normal (Wrote {| status := 200; body := Some (marshal_User u) |})
         | None => Panicked nil_deref
         end
     end, record_call "GetItem" w).
Proof.
  intros Hs Hc. unfold getUser, bind at 1 2, GetItem.
  rewrite getDynamoDBClient_ok, call_answered by done.
  cbn [GetItem_Key GetItem_TableName]. rewrite key_text_id.
  cbn [fst snd GetItem_Item table record_call].
  destruct (table w !! Param c "id") as [item|]; [|reflexivity].
  unfold bind. rewrite user_of_item_run.
  destruct (item_user int_conv item); reflexivity.
Qed.

End Runs.

Lemma key_text_item_of_user (u : User) : key_text (item_of_user u) = Some (ID u).
Proof. apply key_text_insert. Qed.

Lemma createUser_run (c : Context) (u : User) (env : Env) (w : World) :
  session_err env = None -> store_err env = None -> req_body c = Decodes u ->
  createUser c env w =
    (Normal (Wrote {| status := 201; body := Some (marshal_User u) |}),
     set_table (<[ID u := item_of_user u]> (table w)) (record_call "PutItem" w)).
Proof.
  intros Hs Hc Hb. unfold createUser, bind at 1 2 3, c_Bind, ret at 1, PutItem.
  rewrite getDynamoDBClient_ok by done. rewrite Hb.
  rewrite call_answered by done. cbn [PutItem_Item PutItem_TableName].
  fold (item_of_user u). rewrite key_text_item_of_user. reflexivity.
Qed.

Lemma updateUser_run (c : Context) (u : User) (env : Env) (w : World) :
  session_err env = None -> store_err env = None -> req_body c = Decodes u ->
  updateUser c env w =
    (Normal (Wrote {| status := 200; body := Some (marshal_User u) |}),
     set_table
       (<[Param c "id" :=
            <["age" := attr_N (Sprintf_d (Age u))]>
              (<["name" := attr_S (Name u)]>
                 (default {[ "id" := attr_S (Param c "id") ]}
                          (table w !! Param c "id")))]> (table w))
       (record_call "UpdateItem" w)).
Proof.
  intros Hs Hc Hb. unfold updateUser, bind at 1 2 3, c_Bind, ret at 1, UpdateItem.
  rewrite getDynamoDBClient_ok by done. rewrite Hb.
  rewrite call_answered by done.
  cbn [UpdateItem_Key UpdateItem_TableName UpdateExpression
       ExpressionAttributeNames ExpressionAttributeValues].
  rewrite key_text_id, parse_update_main, update_clauses. reflexivity.
Qed.

Lemma deleteUser_run (c : Context) (env : Env) (w : World) :
  session_err env = None -> store_err env = None ->
  deleteUser c env w =
    (Normal (Wrote {| status := 204; body := None |}),
     set_table (delete (Param c "id") (table w)) (record_call "DeleteItem" w)).
Proof.
  intros Hs Hc. unfold deleteUser, bind at 1 2, DeleteItem.
  rewrite getDynamoDBClient_ok, call_answered by done.
  cbn [DeleteItem_Key DeleteItem_TableName]. rewrite key_text_id. reflexivity.
Qed.

(** A failed call: the handler logs the error after its own message and
    returns a 500 with that message alone. *)
Lemma handler_store_down (int_conv : string -> Z) (op : Operation) (c : Context)
    (err : string) (env : Env) (w : World) :
  session_err env = None -> store_err env = Some err ->
  (forall e, req_body c = Undecodable e -> op = Create_op \/ op = Update_op -> False) ->
  handler_of int_conv op c env w =
    (Normal (HTTPError 500 (failure_message op)),
     log_line (failure_message op +:+ ": " +:+ err) (record_call (call_name op) w)).
Proof.
  intros Hs Hc Hb.
  destruct op; cbn [handler_of failure_message call_name];
    unfold getUsers, getUser, createUser, updateUser, deleteUser,
           Scan, GetItem, PutItem, UpdateItem, DeleteItem, c_Bind, bind at 1 2;
    rewrite getDynamoDBClient_ok by done.
  - rewrite (call_failed _ _ _ _ _ err) by done. reflexivity.
  - rewrite (call_failed _ _ _ _ _ err) by done. reflexivity.
  - unfold ret at 1, bind at 1.
    destruct (req_body c) as [e|u] eqn:Hu; [destruct (Hb e); auto|].
    rewrite (call_failed _ _ _ _ _ err) by done. reflexivity.
  - unfold ret at 1, bind at 1.
    destruct (req_body c) as [e|u] eqn:Hu; [destruct (Hb e); auto|].
    rewrite (call_failed _ _ _ _ _ err) by done. reflexivity.
  - rewrite (call_failed _ _ _ _ _ err) by done. reflexivity.
Qed.

(** A body that does not decode: the handler answers 400 before any call
    is sent. *)
Lemma createUser_bad_body (c : Context) (e : string) (env : Env) (w : World) :
  session_err env = None -> req_body c = Undecodable e ->
  createUser c env w = (Normal (HTTPError 400 "Invalid request payload"), w).
Proof.
  intros Hs Hb. unfold createUser, bind at 1 2, c_Bind, ret at 1.
  rewrite getDynamoDBClient_ok by done. by rewrite Hb.
Qed.

Lemma updateUser_bad_body (c : Context) (e : string) (env : Env) (w : World) :
  session_err env = None -> req_body c = Undecodable e ->
  updateUser c env w = (Normal (HTTPError 400 "Invalid request payload"), w).
Proof.
  intros Hs Hb. unfold updateUser, bind at 1 2, c_Bind, ret at 1.
  rewrite getDynamoDBClient_ok by done. by rewrite Hb.
Qed.

(** Without a session every handler ends the process at its first
    statement. *)
Lemma handler_no_session (int_conv : string -> Z) (op : Operation) (c : Context)
    (err : string) (env : Env) (w : World) :
  session_err env = Some err ->
  handler_of int_conv op c env w =
    (Exited 1, log_line ("Failed to create AWS session:" +:+ err) w).
Proof.
  intros Hs.
  destruct op; cbn [handler_of];
    unfold getUsers, getUser, createUser, updateUser, deleteUser, bind at 1;
    by rewrite (getDynamoDBClient_fatal _ _ err).
Qed.

(** ** Equations of the stack and of the serving loop *)

Lemma find_route_context_of (int_conv : string -> Z) (op : Operation)
    (id : string) (b : Body) :
  find_route int_conv (ctx_method (context_of op id b)) (ctx_path (context_of op id b))
  = handler_of int_conv op.
Proof. destruct op; reflexivity. Qed.

Section Stack.

Variable int_conv : string -> Z.
Variables (op : Operation) (id : string) (b : Body).

Let c := context_of op id b.

Lemma ServeHTTP_normal (env : Env) (w w' : World) (r : HandlerResult) :
  handler_of int_conv op c env w = (Normal r, w') ->
  ServeHTTP int_conv c env w =
    (Normal (DefaultHTTPErrorHandler r), answered c (status (DefaultHTTPErrorHandler r)) w').
Proof.
  intros Hh. unfold ServeHTTP, bind, c. rewrite find_route_context_of.
  cbn [applyMiddleware middleware fold_right]. unfold Logger, Recover.
  fold c. rewrite Hh. reflexivity.
Qed.

Lemma ServeHTTP_panic (env : Env) (w w' : World) (v : string) :
  handler_of int_conv op c env w = (Panicked v, w') ->
  ServeHTTP int_conv c env w = (Normal internal_error, answered c 500 w').
Proof.
  intros Hh. unfold ServeHTTP, bind, c. rewrite find_route_context_of.
  cbn [applyMiddleware middleware fold_right]. unfold Logger, Recover.
  fold c. rewrite Hh. reflexivity.
Qed.

Lemma ServeHTTP_exit (env : Env) (w w' : World) (code : Z) :
  handler_of int_conv op c env w = (Exited code, w') ->
  ServeHTTP int_conv c env w = (Exited code, w').
Proof.
  intros Hh. unfold ServeHTTP, bind, c. rewrite find_route_context_of.
  cbn [applyMiddleware middleware fold_right]. unfold Logger, Recover.
  fold c. rewrite Hh. reflexivity.
Qed.

End Stack.

(** A decimal reading undoes [%d]. *)
Lemma Atoi_Sprintf_d (n : Z) : Atoi (Sprintf_d n) = n.
Proof.
  unfold Atoi, Sprintf_d.
  rewrite NilZero.isi.
  - apply DecimalZ.of_to.
  - destruct n; simpl; try discriminate.
    intros [= H]. by apply DecimalPos.Unsigned.to_uint_nonnil in H.
  - destruct n; simpl; try discriminate.
    intros [= H]. by apply DecimalPos.Unsigned.to_uint_nonnil in H.
Qed.

(** ** Contexts and items of the routes *)

Lemma Param_GET_user (id : string) : Param (GET_user id) "id" = id.
Proof. unfold Param, GET_user; cbn [params]. by rewrite lookup_singleton_eq. Qed.

Lemma Param_PUT_user (id : string) (b : Body) : Param (PUT_user id b) "id" = id.
Proof. unfold Param, PUT_user; cbn [params]. by rewrite lookup_singleton_eq. Qed.

Lemma Param_DELETE_user (id : string) : Param (DELETE_user id) "id" = id.
Proof. unfold Param, DELETE_user; cbn [params]. by rewrite lookup_singleton_eq. Qed.

Lemma item_user_item_of_user (int_conv : string -> Z) (u : User) :
  item_user int_conv (item_of_user u) =
    Some {| ID := ID u; Name := Name u; Age := int_conv (Sprintf_d (Age u)) |}.
Proof.
  unfold item_user, text_S, text_N, item_of_user.
  rewrite lookup_insert_eq.
  rewrite lookup_insert_ne, lookup_insert_eq by done.
  rewrite !lookup_insert_ne, lookup_singleton_eq by done.
  reflexivity.
Qed.

(** ** Create, then Get *)

(** C1.  A Create with body [u] answers 201 with [u], and the Get on the
    same id that follows answers 200 with the id and the name of [u] and,
    as age, whatever the conversion [int(...)] makes of the decimal text
    of the age: the record equals the body exactly when the conversion
    reads that text back.  The handler parses nothing. *)
Theorem create_then_get_converts_age (int_conv : string -> Z) (u : User) (w : World) :
  exists w1 w2 : World,
    ServeHTTP int_conv (POST_users (Decodes u)) healthy w =
      (Normal {| status := 201; body := Some (marshal_User u) |}, w1) /\
    ServeHTTP int_conv (GET_user (ID u)) healthy w1 =
      (Normal {| status := 200;
                 body := Some (JObj [("id", JStr (ID u)); ("name", JStr (Name u));
                                     ("age", JNum (int_conv (Sprintf_d (Age u))))]) |},
       w2) /\
    (ServeHTTP int_conv (GET_user (ID u)) healthy w1 =
       (Normal {| status := 200; body := Some (marshal_User u) |}, w2)
     <-> int_conv (Sprintf_d (Age u)) = Age u).
Proof.
  pose proof (createUser_run (POST_users (Decodes u)) u healthy w
                eq_refl eq_refl eq_refl) as Hpost.
  apply (ServeHTTP_normal int_conv Create_op (ID u) (Decodes u)) in Hpost.
  cbn [context_of DefaultHTTPErrorHandler] in Hpost.
  eexists; eexists. split; [exact Hpost|].
  set (w1 := answered _ _ _) in *.
  pose proof (getUser_run int_conv (GET_user (ID u)) healthy w1 eq_refl eq_refl) as Hget.
  rewrite Param_GET_user in Hget.
  replace (table w1 !! ID u) with (Some (item_of_user u)) in Hget
    by (symmetry; apply lookup_insert_eq).
  rewrite item_user_item_of_user in Hget.
  apply (ServeHTTP_normal int_conv Get_op (ID u) no_body) in Hget.
  cbn [context_of DefaultHTTPErrorHandler] in Hget.
  split; [exact Hget|].
  rewrite Hget. unfold marshal_User at 1; cbn [ID Name Age]. split.
  - intros [= H]. exact H.
  - intros ->. reflexivity.
Qed.

(** ** List on an empty table *)

(** C2.  When the scan succeeds and returns no records, List answers 200
    and the body is the document [null]: the slice the handler declares
    is still nil when nothing is appended to it, and the nil slice is not
    written as the empty array. *)
Theorem list_of_empty_table_is_null (int_conv : string -> Z) (w : World) :
  table w = ∅ ->
  ServeHTTP int_conv GET_users healthy w =
    (Normal {| status := 200; body := Some JNull |},
     answered GET_users 200 (record_call "Scan" w))
  /\ JNull <> JArr [].
Proof.
  intros Hempty. split; [|discriminate].
  pose proof (getUsers_run int_conv GET_users healthy w eq_refl eq_refl) as Hlist.
  rewrite Hempty, map_to_list_empty in Hlist. cbn in Hlist.
  exact (ServeHTTP_normal int_conv List_op "" no_body healthy w _ _ Hlist).
Qed.

Lemma list_of_empty_table_is_null_witness :
  table empty_world = ∅ /\
  (ServeHTTP Atoi GET_users healthy empty_world =
     (Normal {| status := 200; body := Some JNull |},
      answered GET_users 200
               (record_call "Scan" empty_world))
   /\ JNull <> JArr []).
Proof.
  split; [reflexivity|].
  apply (list_of_empty_table_is_null Atoi empty_world). reflexivity.
Defined.

(** ** Update *)

(** C3, as the code has it.  An Update with a decodable body writes under
    the path id: the item written is the one the table held under the
    path id (or a new one holding that key) with [name] and [age] set
    from the body, whatever id the body carries.  When the call succeeds
    the response is 200 and echoes the decoded body as it is, with the
    id of the body and not the path id. *)
Theorem update_writes_path_id_echoes_body (int_conv : string -> Z)
    (id : string) (u : User) (w : World) :
  let written :=
    <["age" := attr_N (Sprintf_d (Age u))]>
      (<["name" := attr_S (Name u)]>
         (default {[ "id" := attr_S id ]} (table w !! id))) in
  exists w' : World,
    ServeHTTP int_conv (PUT_user id (Decodes u)) healthy w =
      (Normal {| status := 200; body := Some (marshal_User u) |}, w') /\
    table w' = <[id := written]> (table w) /\
    calls w' = calls w ++ ["UpdateItem"].
Proof.
  intros written.
  pose proof (updateUser_run (PUT_user id (Decodes u)) u healthy w
                eq_refl eq_refl eq_refl) as Hput.
  rewrite Param_PUT_user in Hput.
  apply (ServeHTTP_normal int_conv Update_op id (Decodes u)) in Hput.
  eexists. split; [exact Hput|]. split; reflexivity.
Qed.

(** C3, as stated, fails: a PUT on [/users/1] whose body carries the id
    [2] writes the item with id [1] and answers with a record whose id is
    [2]. *)
Lemma update_echo_carries_body_id :
  exists w' : World,
    ServeHTTP Atoi (PUT_user "1" (Decodes {| ID := "2"; Name := "Bob"; Age := 5 |}))
              healthy empty_world =
      (Normal {| status := 200;
                 body := Some (JObj [("id", JStr "2"); ("name", JStr "Bob");
                                     ("age", JNum 5)]) |}, w') /\
    text_S (default ∅ (table w' !! "1")) "id" = Some "1" /\
    table w' !! "2" = None /\
    JStr "2" <> JStr "1".
Proof.
  pose proof (updateUser_run
                (PUT_user "1" (Decodes {| ID := "2"; Name := "Bob"; Age := 5 |}))
                _ healthy empty_world eq_refl eq_refl eq_refl) as Hput.
  rewrite Param_PUT_user in Hput.
  apply (ServeHTTP_normal Atoi Update_op "1" (Decodes _)) in Hput.
  eexists. split; [exact Hput|].
  cbn [answered access_line set_table record_call table empty_world].
  split; [|split; [|discriminate]].
  - rewrite lookup_insert_eq, lookup_empty. unfold text_S, default, from_option, id.
    rewrite !lookup_insert_ne by done. by rewrite lookup_singleton_eq.
  - rewrite lookup_insert_ne by done. apply lookup_empty.
Qed.

(** ** The serving loop *)

Lemma serve_cons_normal (int_conv : string -> Z) (env : Env) (c : Context)
    (reqs : list (Env * Context)) (w w' : World) (r : Response) :
  ServeHTTP int_conv c env w = (Normal r, w') ->
  serve int_conv ((env, c) :: reqs) w =
    (Some r :: (serve int_conv reqs w').1, (serve int_conv reqs w').2).
Proof.
  intros Hr. cbn [serve]. rewrite Hr. by destruct (serve int_conv reqs w').
Qed.

(** Requests that arrive after others are handled from the world the
    earlier ones left, as long as the process is running. *)
Lemma serve_app (int_conv : string -> Z) (pre rest : list (Env * Context))
    (w w1 : World) (rs : list (option Response)) :
  serve int_conv pre w = (rs, Running w1) ->
  serve int_conv (pre ++ rest) w =
    (rs ++ (serve int_conv rest w1).1, (serve int_conv rest w1).2).
Proof.
  revert w rs. induction pre as [|[env c] pre IH]; intros w rs Hpre.
  - cbn in Hpre. injection Hpre as <- <-. cbn. by destruct (serve int_conv rest w).
  - cbn [serve app] in *.
    destruct (ServeHTTP int_conv c env w) as [[resp|v|code] w'];
      [| |discriminate].
    + destruct (serve int_conv pre w') as [rs' p] eqn:Hrest.
      injection Hpre as <- ->. rewrite (IH w' rs' Hrest). reflexivity.
    + destruct (serve int_conv pre w') as [rs' p] eqn:Hrest.
      injection Hpre as <- ->. rewrite (IH w' rs' Hrest). reflexivity.
Qed.

(** ** Failure to build the session *)

(** C4, as the code has it.  [main] builds no session: the server starts
    and serves whatever comes first.  The session is built inside each
    handler; when that fails while a request of one of the five routes is
    handled, the failure is logged and the process exits with status 1:
    the requests before it have been answered, this one gets no response,
    and none after it is handled. *)
Theorem session_failure_ends_process_at_request (int_conv : string -> Z)
    (op : Operation) (id : string) (b : Body) (env : Env) (err : string)
    (pre post : list (Env * Context)) (w w1 : World)
    (rs : list (option Response)) :
  session_err env = Some err ->
  main int_conv pre w = (rs, Running w1) ->
  main int_conv [] w = ([], Running (print_line "Server started on port 8000" w)) /\
  main int_conv (pre ++ (env, context_of op id b) :: post) w =
    (rs, Halted 1 (log_line ("Failed to create AWS session:" +:+ err) w1)).
Proof.
  intros Hs Hpre. split; [reflexivity|].
  unfold main in *. rewrite (serve_app _ _ _ _ _ _ Hpre).
  cbn [serve].
  rewrite (ServeHTTP_exit int_conv op id b env w1 _ 1
             (handler_no_session int_conv op _ err env w1 Hs)).
  cbn [fst snd]. by rewrite app_nil_r.
Qed.

Lemma session_failure_ends_process_at_request_witness :
  session_err (no_session "NoCredentialProviders") = Some "NoCredentialProviders" /\
  main Atoi [(healthy, DELETE_user "1")] empty_world =
    ([Some {| status := 204; body := None |}],
     Running {| table := ∅; calls := ["DeleteItem"]; stderr := [];
                stdout := ["Server started on port 8000"];
                access := [("DELETE", "/users/:id", 204)] |}) /\
  main Atoi [] empty_world =
    ([], Running (print_line "Server started on port 8000" empty_world)) /\
  main Atoi ([(healthy, DELETE_user "1")]
               ++ (no_session "NoCredentialProviders", context_of List_op "" no_body)
               :: [(healthy, GET_users)]) empty_world =
    ([Some {| status := 204; body := None |}],
     Halted 1 (log_line ("Failed to create AWS session:" +:+ "NoCredentialProviders")
                 {| table := ∅; calls := ["DeleteItem"]; stderr := [];
                    stdout := ["Server started on port 8000"];
                    access := [("DELETE", "/users/:id", 204)] |})).
Proof.
  assert (Hpre : main Atoi [(healthy, DELETE_user "1")] empty_world =
    ([Some {| status := 204; body := None |}],
     Running {| table := ∅; calls := ["DeleteItem"]; stderr := [];
                stdout := ["Server started on port 8000"];
                access := [("DELETE", "/users/:id", 204)] |})).
  { unfold main.
    rewrite (serve_cons_normal Atoi healthy (DELETE_user "1") [] _ _ _
               (ServeHTTP_normal Atoi Delete_op "1" no_body healthy _ _ _
                  (deleteUser_run (DELETE_user "1") healthy _ eq_refl eq_refl))).
    rewrite Param_DELETE_user. cbn. by rewrite delete_empty. }
  split; [reflexivity|]. split; [exact Hpre|].
  exact (session_failure_ends_process_at_request Atoi List_op "" no_body
           (no_session "NoCredentialProviders") "NoCredentialProviders"
           [(healthy, DELETE_user "1")] [(healthy, GET_users)] empty_world _ _
           eq_refl Hpre).
Defined.

(** C4, as stated, fails: the server has started and answered a request
    when the session cannot be built, and the process ends while the
    second request is handled, not at startup. *)
Lemma session_failure_after_traffic :
  main Atoi [(healthy, DELETE_user "1");
             (no_session "NoCredentialProviders", GET_users);
             (healthy, GET_users)] empty_world =
    ([Some {| status := 204; body := None |}],
     Halted 1 {| table := ∅; calls := ["DeleteItem"];
                 stderr := ["Failed to create AWS session:NoCredentialProviders"];
                 stdout := ["Server started on port 8000"];
                 access := [("DELETE", "/users/:id", 204)] |}).
Proof.
  unfold main.
  rewrite (serve_cons_normal Atoi healthy (DELETE_user "1") _ _ _ _
             (ServeHTTP_normal Atoi Delete_op "1" no_body healthy _ _ _
                (deleteUser_run (DELETE_user "1") healthy _ eq_refl eq_refl))).
  rewrite Param_DELETE_user. cbn [serve].
  rewrite (ServeHTTP_exit Atoi List_op "" no_body _ _ _ 1
             (handler_no_session Atoi List_op _ "NoCredentialProviders"
                (no_session "NoCredentialProviders") _ eq_refl)).
  cbn. by rewrite delete_empty.
Qed.

(** ** Bodies that do not decode *)

(** C5, as the code has it.  A Create or an Update whose body does not
    decode sends no operation to the table service and leaves the table
    as it was, in any surroundings; it is answered with 400 whenever the
    session is built, which both handlers do before they bind the
    body. *)
Theorem bad_body_is_400_without_write (int_conv : string -> Z) (op : Operation)
    (id e : string) (env : Env) (w : World) :
  op = Create_op \/ op = Update_op ->
  (calls (ServeHTTP int_conv (context_of op id (Undecodable e)) env w).2 = calls w /\
   table (ServeHTTP int_conv (context_of op id (Undecodable e)) env w).2 = table w)
  /\
  (session_err env = None ->
   exists w' : World,
     ServeHTTP int_conv (context_of op id (Undecodable e)) env w =
       (Normal {| status := 400;
                  body := Some (JObj [("message", JStr "Invalid request payload")]) |},
        w') /\
     calls w' = calls w /\ table w' = table w).
Proof.
  intros Hop.
  assert (Hbuilt : session_err env = None ->
            ServeHTTP int_conv (context_of op id (Undecodable e)) env w =
              (Normal {| status := 400;
                         body := Some (JObj [("message",
                                              JStr "Invalid request payload")]) |},
               answered (context_of op id (Undecodable e)) 400 w)).
  { intros Hs. apply (ServeHTTP_normal int_conv op id (Undecodable e) env w w
                        (HTTPError 400 "Invalid request payload")).
    destruct Hop as [-> | ->]; cbn [handler_of context_of].
    - by apply (createUser_bad_body _ e).
    - by apply (updateUser_bad_body _ e). }
  split.
  - destruct (session_err env) as [err|] eqn:Hs.
    + rewrite (ServeHTTP_exit int_conv op id (Undecodable e) env w _ 1
                 (handler_no_session int_conv op _ err env w Hs)).
      split; reflexivity.
    + rewrite (Hbuilt eq_refl). split; reflexivity.
  - intros Hs. eexists. split; [exact (Hbuilt Hs)|]. split; reflexivity.
Qed.

Lemma bad_body_is_400_without_write_witness :
  (calls (ServeHTTP Atoi (context_of Update_op "1" (Undecodable "unexpected EOF"))
                    healthy empty_world).2 = calls empty_world /\
   table (ServeHTTP Atoi (context_of Update_op "1" (Undecodable "unexpected EOF"))
                    healthy empty_world).2 = table empty_world)
  /\
  exists w' : World,
    ServeHTTP Atoi (context_of Update_op "1" (Undecodable "unexpected EOF"))
              healthy empty_world =
      (Normal {| status := 400;
                 body := Some (JObj [("message", JStr "Invalid request payload")]) |},
       w') /\
    calls w' = calls empty_world /\ table w' = table empty_world.
Proof.
  destruct (bad_body_is_400_without_write Atoi Update_op "1" "unexpected EOF"
              healthy empty_world (or_intror eq_refl)) as [Hsame Hbuilt].
  split; [exact Hsame|]. exact (Hbuilt eq_refl).
Defined.

(** C5, as stated, fails: when the session cannot be built, a Create and
    an Update whose body does not decode end the process before the body
    is bound, and no 400 is sent. *)
Lemma bad_body_without_session_exits :
  main Atoi [(no_session "NoCredentialProviders",
              POST_users (Undecodable "unexpected EOF"))] empty_world =
    ([], Halted 1 {| table := ∅; calls := [];
                     stderr := ["Failed to create AWS session:NoCredentialProviders"];
                     stdout := ["Server started on port 8000"];
                     access := [] |}) /\
  main Atoi [(no_session "NoCredentialProviders",
              PUT_user "1" (Undecodable "unexpected EOF"))] empty_world =
    ([], Halted 1 {| table := ∅; calls := [];
                     stderr := ["Failed to create AWS session:NoCredentialProviders"];
                     stdout := ["Server started on port 8000"];
                     access := [] |}).
Proof.
  unfold main. cbn [serve]. split.
  - by rewrite (ServeHTTP_exit Atoi Create_op "" (Undecodable "unexpected EOF")
                  (no_session "NoCredentialProviders") _ _ 1
                  (handler_no_session Atoi Create_op _ "NoCredentialProviders"
                     (no_session "NoCredentialProviders") _ eq_refl)).
  - by rewrite (ServeHTTP_exit Atoi Update_op "1" (Undecodable "unexpected EOF")
                  (no_session "NoCredentialProviders") _ _ 1
                  (handler_no_session Atoi Update_op _ "NoCredentialProviders"
                     (no_session "NoCredentialProviders") _ eq_refl)).
Qed.

(** ** Get *)

(** C6, as the code has it.  When the lookup succeeds and the table holds
    nothing under the id, Get answers 404; when it holds an item that has
    [id] and [name] as strings and [age] as a number, Get answers 200
    with that one record. *)
Theorem get_answers_404_or_200 (int_conv : string -> Z) (id : string) (w : World) :
  (table w !! id = None ->
   ServeHTTP int_conv (GET_user id) healthy w =
     (Normal {| status := 404; body := Some (JObj [("message", JStr "User not found")]) |},
      answered (GET_user id) 404
               (record_call "GetItem" w)))
  /\
  (forall (item : Item) (i n a : string),
     table w !! id = Some item ->
     text_S item "id" = Some i -> text_S item "name" = Some n ->
     text_N item "age" = Some a ->
     ServeHTTP int_conv (GET_user id) healthy w =
       (Normal {| status := 200;
                  body := Some (JObj [("id", JStr i); ("name", JStr n);
                                      ("age", JNum (int_conv a))]) |},
        answered (GET_user id) 200
                 (record_call "GetItem" w))).
Proof.
  pose proof (getUser_run int_conv (GET_user id) healthy w eq_refl eq_refl) as Hget.
  rewrite Param_GET_user in Hget.
  split.
  - intros Hnone. rewrite Hnone in Hget.
    exact (ServeHTTP_normal int_conv Get_op id no_body healthy w _ _ Hget).
  - intros item i n a Hsome Hi Hn Ha. rewrite Hsome in Hget.
    unfold item_user in Hget. rewrite Hi, Hn, Ha in Hget.
    exact (ServeHTTP_normal int_conv Get_op id no_body healthy w _ _ Hget).
Qed.

Lemma get_answers_404_or_200_witness :
  (ServeHTTP Atoi (GET_user "2") healthy
     (set_table {[ "1" := item_of_user {| ID := "1"; Name := "Alice"; Age := 30 |} ]}
                empty_world) =
     (Normal {| status := 404; body := Some (JObj [("message", JStr "User not found")]) |},
      answered (GET_user "2") 404
        (record_call "GetItem"
           (set_table {[ "1" := item_of_user {| ID := "1"; Name := "Alice"; Age := 30 |} ]}
                      empty_world))))
  /\
  ServeHTTP Atoi (GET_user "1") healthy
    (set_table {[ "1" := item_of_user {| ID := "1"; Name := "Alice"; Age := 30 |} ]}
               empty_world) =
    (Normal {| status := 200;
               body := Some (JObj [("id", JStr "1"); ("name", JStr "Alice");
                                   ("age", JNum (Atoi "30"))]) |},
     answered (GET_user "1") 200
       (record_call "GetItem"
          (set_table {[ "1" := item_of_user {| ID := "1"; Name := "Alice"; Age := 30 |} ]}
                     empty_world))).
Proof.
  split.
  - apply (get_answers_404_or_200 Atoi "2"). vm_compute. reflexivity.
  - apply (get_answers_404_or_200 Atoi "1" _) with
      (item := item_of_user {| ID := "1"; Name := "Alice"; Age := 30 |});
      vm_compute; reflexivity.
Defined.

(** C6, as stated, fails: an item is found under the id, it has no
    [name], and Get answers 500. *)
Lemma get_of_item_without_name_is_500 :
  table (set_table {[ "1" := {[ "id" := attr_S "1" ]} ]} empty_world) !! "1"
    = Some {[ "id" := attr_S "1" ]} /\
  ServeHTTP Atoi (GET_user "1") healthy
    (set_table {[ "1" := {[ "id" := attr_S "1" ]} ]} empty_world) =
    (Normal {| status := 500;
               body := Some (JObj [("message", JStr "Internal Server Error")]) |},
     answered (GET_user "1") 500
       (record_call "GetItem"
          (set_table {[ "1" := {[ "id" := attr_S "1" ]} ]} empty_world))) /\
  500 <> 200.
Proof.
  split; [apply lookup_singleton_eq|]. split; [|discriminate].
  pose proof (getUser_run Atoi (GET_user "1") healthy
                (set_table {[ "1" := {[ "id" := attr_S "1" ]} ]} empty_world)
                eq_refl eq_refl) as Hget.
  rewrite Param_GET_user in Hget. cbn [table set_table] in Hget.
  rewrite lookup_singleton_eq in Hget.
  replace (item_user Atoi {[ "id" := attr_S "1" ]}) with (@None User) in Hget.
  - exact (ServeHTTP_panic Atoi Get_op "1" no_body healthy _ _ _ Hget).
  - unfold item_user, text_S. rewrite lookup_singleton_eq. cbn [attr_S av_S].
    by rewrite lookup_singleton_ne.
Qed.

(** ** Delete *)

(** C7.  For every id and every table, with or without a record under
    the id, a Delete whose call succeeds answers 204 with no body, and so
    does the same Delete again; the key is free after the first. *)
Theorem delete_twice_is_204 (int_conv : string -> Z) (id : string) (w : World) :
  exists w1 w2 : World,
    ServeHTTP int_conv (DELETE_user id) healthy w =
      (Normal {| status := 204; body := None |}, w1) /\
    ServeHTTP int_conv (DELETE_user id) healthy w1 =
      (Normal {| status := 204; body := None |}, w2) /\
    table w1 = delete id (table w) /\ table w2 = table w1.
Proof.
  pose proof (deleteUser_run (DELETE_user id) healthy w eq_refl eq_refl) as H1.
  rewrite Param_DELETE_user in H1.
  apply (ServeHTTP_normal int_conv Delete_op id no_body) in H1.
  cbn [context_of DefaultHTTPErrorHandler status] in H1.
  set (w1 := answered _ _ _) in H1.
  pose proof (deleteUser_run (DELETE_user id) healthy w1 eq_refl eq_refl) as H2.
  rewrite Param_DELETE_user in H2.
  apply (ServeHTTP_normal int_conv Delete_op id no_body) in H2.
  cbn [context_of DefaultHTTPErrorHandler status] in H2.
  exists w1. eexists. split; [exact H1|]. split; [exact H2|].
  split; [reflexivity|].
  cbn [answered access_line set_table record_call table]. unfold w1.
  cbn [answered access_line set_table record_call table].
  apply delete_delete_eq.
Qed.

(** ** Failures of the table service *)

(** C8, as the code has it.  For each of the five operations, a call that
    fails is answered with 500 and a message that depends on the
    operation alone, one text for each operation; the error is written to
    the log after that text and is no part of the response, and the table
    is as it was. *)
Theorem store_failure_is_500_with_own_message (int_conv : string -> Z)
    (op : Operation) (id : string) (u : User) (err : string) (w : World) :
  exists w' : World,
    ServeHTTP int_conv (context_of op id (Decodes u)) (store_down err) w =
      (Normal {| status := 500;
                 body := Some (JObj [("message", JStr (failure_message op))]) |},
       w') /\
    stderr w' = stderr w ++ [failure_message op +:+ ": " +:+ err] /\
    table w' = table w.
Proof.
  assert (handler_of int_conv op (context_of op id (Decodes u)) (store_down err) w =
    (Normal (HTTPError 500 (failure_message op)),
     log_line (failure_message op +:+ ": " +:+ err) (record_call (call_name op) w)))
    as Hh.
  { apply handler_store_down; [reflexivity|reflexivity|].
    intros e He [-> | ->]; discriminate He. }
  apply ServeHTTP_normal in Hh. eexists. split; [exact Hh|]. split; reflexivity.
Qed.

(** C8, as stated, fails: answered with the same error, List and Get
    send two different messages. *)
Lemma failure_messages_differ :
  (exists w' : World,
     ServeHTTP Atoi GET_users (store_down "RequestError: timeout") empty_world =
       (Normal {| status := 500;
                  body := Some (JObj [("message", JStr "Failed to retrieve users")]) |},
        w')) /\
  (exists w' : World,
     ServeHTTP Atoi (GET_user "1") (store_down "RequestError: timeout") empty_world =
       (Normal {| status := 500;
                  body := Some (JObj [("message", JStr "Failed to retrieve user")]) |},
        w')) /\
  JStr "Failed to retrieve users" <> JStr "Failed to retrieve user".
Proof.
  split; [|split; [|discriminate]].
  - eexists.
    refine (ServeHTTP_normal Atoi List_op "" no_body _ _ _ _
              (handler_store_down Atoi List_op _ "RequestError: timeout"
                 (store_down "RequestError: timeout") empty_world
                 eq_refl eq_refl _)).
    intros e _ [H|H]; discriminate H.
  - eexists.
    refine (ServeHTTP_normal Atoi Get_op "1" no_body _ _ _ _
              (handler_store_down Atoi Get_op _ "RequestError: timeout"
                 (store_down "RequestError: timeout") empty_world
                 eq_refl eq_refl _)).
    intros e _ [H|H]; discriminate H.
Qed.

(** ** Update of an id the table does not hold *)

(** The item an Update leaves under a free key is the item a Create with
    that id would write. *)
Lemma upsert_item (id : string) (u : User) :
  <["age" := attr_N (Sprintf_d (Age u))]>
    (<["name" := attr_S (Name u)]> ({[ "id" := attr_S id ]} : Item))
  = item_of_user {| ID := id; Name := Name u; Age := Age u |}.
Proof.
  unfold item_of_user; cbn [ID Name Age].
  rewrite <- !insert_empty.
  rewrite (insert_insert_ne _ "name" "id") by done.
  rewrite (insert_insert_ne _ "age" "id") by done.
  by rewrite (insert_insert_ne _ "age" "name") by done.
Qed.

(** C9.  An Update on an id under which the table holds nothing does not
    answer 404: it answers 200, the table then holds under that id an
    item with the key and, besides the key, [name] and [age] only, and a
    Get on that id that follows answers 200. *)
Theorem update_of_missing_id_creates (int_conv : string -> Z)
    (id : string) (u : User) (w : World) :
  table w !! id = None ->
  exists w1 w2 : World,
    ServeHTTP int_conv (PUT_user id (Decodes u)) healthy w =
      (Normal {| status := 200; body := Some (marshal_User u) |}, w1) /\
    table w1 !! id =
      Some {[ "id" := attr_S id;
              "name" := attr_S (Name u);
              "age" := attr_N (Sprintf_d (Age u)) ]} /\
    ServeHTTP int_conv (GET_user id) healthy w1 =
      (Normal {| status := 200;
                 body := Some (JObj [("id", JStr id); ("name", JStr (Name u));
                                     ("age", JNum (int_conv (Sprintf_d (Age u))))]) |},
       w2).
Proof.
  intros Hfree.
  pose proof (updateUser_run (PUT_user id (Decodes u)) u healthy w
                eq_refl eq_refl eq_refl) as Hput.
  rewrite Param_PUT_user, Hfree in Hput.
  unfold default, from_option, Datatypes.id in Hput. rewrite upsert_item in Hput.
  apply (ServeHTTP_normal int_conv Update_op id (Decodes u)) in Hput.
  cbn [context_of DefaultHTTPErrorHandler status] in Hput.
  set (w1 := answered _ _ _) in Hput.
  assert (Hheld : table w1 !! id =
                  Some (item_of_user {| ID := id; Name := Name u; Age := Age u |})).
  { apply lookup_insert_eq. }
  pose proof (getUser_run int_conv (GET_user id) healthy w1 eq_refl eq_refl) as Hget.
  rewrite Param_GET_user, Hheld, item_user_item_of_user in Hget.
  apply (ServeHTTP_normal int_conv Get_op id no_body) in Hget.
  exists w1. eexists. split; [exact Hput|]. split; [exact Hheld|exact Hget].
Qed.

Lemma update_of_missing_id_creates_witness :
  table empty_world !! "7" = None /\
  exists w1 w2 : World,
    ServeHTTP Atoi (PUT_user "7" (Decodes {| ID := ""; Name := "Bob"; Age := 5 |}))
              healthy empty_world =
      (Normal {| status := 200;
                 body := Some (marshal_User {| ID := ""; Name := "Bob"; Age := 5 |}) |},
       w1) /\
    table w1 !! "7" =
      Some {[ "id" := attr_S "7"; "name" := attr_S "Bob";
              "age" := attr_N (Sprintf_d 5) ]} /\
    ServeHTTP Atoi (GET_user "7") healthy w1 =
      (Normal {| status := 200;
                 body := Some (JObj [("id", JStr "7"); ("name", JStr "Bob");
                                     ("age", JNum (Atoi (Sprintf_d 5)))]) |},
       w2).
Proof.
  split; [apply lookup_empty|].
  apply (update_of_missing_id_creates Atoi "7"
           {| ID := ""; Name := "Bob"; Age := 5 |} empty_world).
  apply lookup_empty.
Defined.

(** ** Items that are no user records *)

Lemma item_user_None (int_conv : string -> Z) (item : Item) :
  ~ user_record item -> item_user int_conv item = None.
Proof.
  intros Hbad. unfold item_user.
  destruct (text_S item "id") as [i|] eqn:Hi; [|reflexivity].
  destruct (text_S item "name") as [n|] eqn:Hn; [|reflexivity].
  destruct (text_N item "age") as [a|] eqn:Ha; [|reflexivity].
  destruct Hbad. unfold user_record. rewrite Hi, Hn, Ha. eauto.
Qed.

(** The loop stops at the first item that is no user record, wherever in
    the list it stands. *)
Lemma items_users_None (int_conv : string -> Z) (items : list Item)
    (item : Item) (acc : slice User) :
  item ∈ items -> item_user int_conv item = None ->
  items_users int_conv items acc = None.
Proof.
  intros Hin Hbad. revert acc.
  induction Hin as [item items | item other items Hin IH]; intros acc.
  - cbn [items_users]. by rewrite Hbad.
  - cbn [items_users].
    destruct (item_user int_conv other); [by apply IH|reflexivity].
Qed.

Lemma scanned_item (t : gmap string Item) (k : string) (item : Item) :
  t !! k = Some item -> item ∈ (map_to_list t).*2.
Proof.
  intros Hk. apply list_elem_of_fmap. exists (k, item).
  split; [reflexivity|]. by apply elem_of_map_to_list.
Qed.

(** C10.  When the table holds an item that lacks [id], [name] or [age],
    or has one of them in another form, the Get on its key and every List
    panic in the record-mapping step on a nil pointer; the recovery
    middleware answers 500 in both cases, the process keeps running and
    goes on to the requests that follow. *)
Theorem malformed_item_panics_and_is_500 (int_conv : string -> Z)
    (k : string) (item : Item) (w : World) (reqs : list (Env * Context)) :
  table w !! k = Some item -> ~ user_record item ->
  (getUser int_conv (GET_user k) healthy w =
     (Panicked nil_deref, record_call "GetItem" w) /\
   serve int_conv ((healthy, GET_user k) :: reqs) w =
     (Some internal_error ::
        (serve int_conv reqs (answered (GET_user k) 500 (record_call "GetItem" w))).1,
      (serve int_conv reqs (answered (GET_user k) 500 (record_call "GetItem" w))).2))
  /\
  (getUsers int_conv GET_users healthy w =
     (Panicked nil_deref, record_call "Scan" w) /\
   serve int_conv ((healthy, GET_users) :: reqs) w =
     (Some internal_error ::
        (serve int_conv reqs (answered GET_users 500 (record_call "Scan" w))).1,
      (serve int_conv reqs (answered GET_users 500 (record_call "Scan" w))).2)).
Proof.
  intros Hheld Hbad. apply (item_user_None int_conv) in Hbad.
  assert (Hget : getUser int_conv (GET_user k) healthy w =
                 (Panicked nil_deref, record_call "GetItem" w)).
  { rewrite getUser_run by reflexivity.
    by rewrite Param_GET_user, Hheld, Hbad. }
  assert (Hlist : getUsers int_conv GET_users healthy w =
                  (Panicked nil_deref, record_call "Scan" w)).
  { rewrite getUsers_run by reflexivity.
    by rewrite (items_users_None int_conv _ item None (scanned_item _ k _ Hheld) Hbad). }
  split; (split; [assumption|]).
  - apply serve_cons_normal.
    exact (ServeHTTP_panic int_conv Get_op k no_body healthy w _ _ Hget).
  - apply serve_cons_normal.
    exact (ServeHTTP_panic int_conv List_op "" no_body healthy w _ _ Hlist).
Qed.

Lemma malformed_item_panics_and_is_500_witness :
  let w := set_table {[ "1" := {[ "id" := attr_S "1"; "name" := attr_BOOL true ]} ]}
                     empty_world in
  (getUser Atoi (GET_user "1") healthy w =
     (Panicked nil_deref, record_call "GetItem" w) /\
   serve Atoi ((healthy, GET_user "1") :: [(healthy, DELETE_user "1")]) w =
     (Some internal_error ::
        (serve Atoi [(healthy, DELETE_user "1")]
               (answered (GET_user "1") 500 (record_call "GetItem" w))).1,
      (serve Atoi [(healthy, DELETE_user "1")]
             (answered (GET_user "1") 500 (record_call "GetItem" w))).2))
  /\
  (getUsers Atoi GET_users healthy w =
     (Panicked nil_deref, record_call "Scan" w) /\
   serve Atoi ((healthy, GET_users) :: [(healthy, DELETE_user "1")]) w =
     (Some internal_error ::
        (serve Atoi [(healthy, DELETE_user "1")]
               (answered GET_users 500 (record_call "Scan" w))).1,
      (serve Atoi [(healthy, DELETE_user "1")]
             (answered GET_users 500 (record_call "Scan" w))).2)).
Proof.
  intros w.
  apply (malformed_item_panics_and_is_500 Atoi "1"
           {[ "id" := attr_S "1"; "name" := attr_BOOL true ]} w
           [(healthy, DELETE_user "1")]).
  - apply lookup_singleton_eq.
  - intros (_ & [n Hn] & _). unfold text_S in Hn.
    rewrite lookup_insert_ne, lookup_singleton_eq in Hn by done. discriminate Hn.
Defined.

(** ** Further properties of the mapping *)

(** X1.  A Get that follows a successful Delete of the same id answers
    404. *)
Theorem delete_then_get_is_404 (int_conv : string -> Z) (id : string) (w : World) :
  exists w1 w2 : World,
    ServeHTTP int_conv (DELETE_user id) healthy w =
      (Normal {| status := 204; body := None |}, w1) /\
    ServeHTTP int_conv (GET_user id) healthy w1 =
      (Normal {| status := 404;
                 body := Some (JObj [("message", JStr "User not found")]) |}, w2).
Proof.
  pose proof (deleteUser_run (DELETE_user id) healthy w eq_refl eq_refl) as Hdel.
  rewrite Param_DELETE_user in Hdel.
  apply (ServeHTTP_normal int_conv Delete_op id no_body) in Hdel.
  cbn [context_of DefaultHTTPErrorHandler status] in Hdel.
  set (w1 := answered _ _ _) in Hdel.
  pose proof (getUser_run int_conv (GET_user id) healthy w1 eq_refl eq_refl) as Hget.
  rewrite Param_GET_user in Hget.
  replace (table w1 !! id) with (@None Item) in Hget
    by (symmetry; apply lookup_delete_eq).
  apply (ServeHTTP_normal int_conv Get_op id no_body) in Hget.
  exists w1. eexists. split; [exact Hdel|exact Hget].
Qed.

(** X2.  A Create writes without looking: it answers 201 with the body, the
    table then holds under the id of the body the item of the body,
    whatever it held there before, and every other key is as it was. *)
Theorem create_overwrites (int_conv : string -> Z) (u : User) (w : World) :
  exists w1 : World,
    ServeHTTP int_conv (POST_users (Decodes u)) healthy w =
      (Normal {| status := 201; body := Some (marshal_User u) |}, w1) /\
    table w1 !! ID u = Some (item_of_user u) /\
    forall k : string, k <> ID u -> table w1 !! k = table w !! k.
Proof.
  pose proof (createUser_run (POST_users (Decodes u)) u healthy w
                eq_refl eq_refl eq_refl) as Hpost.
  apply (ServeHTTP_normal int_conv Create_op (ID u) (Decodes u)) in Hpost.
  eexists. split; [exact Hpost|].
  cbn [answered access_line set_table record_call table]. split.
  - apply lookup_insert_eq.
  - intros k Hk. by apply lookup_insert_ne.
Qed.

(** X3.  An Update of an id the table holds sets [name] and [age] of the
    item and nothing else: its other attributes, the key among them, and the
    items under other keys are as they were. *)
Theorem update_of_held_id_sets_name_and_age (int_conv : string -> Z)
    (id : string) (u : User) (item : Item) (w : World) :
  table w !! id = Some item ->
  exists (w1 : World) (item' : Item),
    ServeHTTP int_conv (PUT_user id (Decodes u)) healthy w =
      (Normal {| status := 200; body := Some (marshal_User u) |}, w1) /\
    table w1 !! id = Some item' /\
    item' !! "name" = Some (attr_S (Name u)) /\
    item' !! "age" = Some (attr_N (Sprintf_d (Age u))) /\
    (forall a : string, a <> "name" -> a <> "age" -> item' !! a = item !! a) /\
    (forall k : string, k <> id -> table w1 !! k = table w !! k).
Proof.
  intros Hheld.
  pose proof (updateUser_run (PUT_user id (Decodes u)) u healthy w
                eq_refl eq_refl eq_refl) as Hput.
  rewrite Param_PUT_user, Hheld in Hput.
  unfold default, from_option, Datatypes.id in Hput.
  apply (ServeHTTP_normal int_conv Update_op id (Decodes u)) in Hput.
  eexists. eexists. split; [exact Hput|].
  cbn [answered access_line set_table record_call table].
  split; [apply lookup_insert_eq|]. split; [|split; [|split]].
  - rewrite lookup_insert_ne by done. apply lookup_insert_eq.
  - apply lookup_insert_eq.
  - intros a Hn Ha. by rewrite !lookup_insert_ne.
  - intros k Hk. by apply lookup_insert_ne.
Qed.

Lemma update_of_held_id_sets_name_and_age_witness :
  let w := set_table {[ "1" := item_of_user {| ID := "1"; Name := "Alice"; Age := 30 |} ]}
                     empty_world in
  table w !! "1" = Some (item_of_user {| ID := "1"; Name := "Alice"; Age := 30 |}) /\
  exists (w1 : World) (item' : Item),
    ServeHTTP Atoi (PUT_user "1" (Decodes {| ID := ""; Name := "Bob"; Age := 5 |}))
              healthy w =
      (Normal {| status := 200;
                 body := Some (marshal_User {| ID := ""; Name := "Bob"; Age := 5 |}) |},
       w1) /\
    table w1 !! "1" = Some item' /\
    item' !! "name" = Some (attr_S "Bob") /\
    item' !! "age" = Some (attr_N (Sprintf_d 5)) /\
    (forall a : string, a <> "name" -> a <> "age" ->
       item' !! a = item_of_user {| ID := "1"; Name := "Alice"; Age := 30 |} !! a) /\
    (forall k : string, k <> "1" -> table w1 !! k = table w !! k).
Proof.
  intros w. split; [apply lookup_singleton_eq|].
  apply (update_of_held_id_sets_name_and_age Atoi "1"
           {| ID := ""; Name := "Bob"; Age := 5 |}
           (item_of_user {| ID := "1"; Name := "Alice"; Age := 30 |}) w).
  apply lookup_singleton_eq.
Defined.

(** ** The handlers in any surroundings *)

Section Cases.

Variable int_conv : string -> Z.
Variables (c : Context) (env : Env) (w : World).

(** The process ends when the session cannot be built; otherwise the
    outcome is [k]. *)
Let with_session (k : Outcome HandlerResult * World) : Outcome HandlerResult * World :=
  match session_err env with
  | Some err => (Exited 1, log_line ("Failed to create AWS session:" +:+ err) w)
  | None => k
  end.

(** The 500 of a call that failed, or the outcome [k] of one that was
    answered. *)
Let with_call (op : Operation) (k : Outcome HandlerResult * World)
    : Outcome HandlerResult * World :=
  match store_err env with
  | Some err =>
      (Normal (HTTPError 500 (failure_message op)),
       log_line (failure_message op +:+ ": " +:+ err) (record_call (call_name op) w))
  | None => k
  end.

Lemma getUsers_cases :
  getUsers int_conv c env w =
    with_session (with_call List_op
      (match items_users int_conv (map_to_list (table w)).*2 None with
       | Some s => Normal (Wrote {| status := 200; body := Some (marshal_Users s) |})
       | None => Panicked nil_deref
       end, record_call "Scan" w)).
Proof.
  unfold with_session, with_call.
  destruct (session_err env) as [se|] eqn:Hs.
  - exact (handler_no_session int_conv List_op c se env w Hs).
  - destruct (store_err env) as [ce|] eqn:Hc.
    + apply (handler_store_down int_conv List_op c ce env w Hs Hc).
      intros e _ [H|H]; discriminate H.
    + by apply getUsers_run.
Qed.

Lemma getUser_cases :
  getUser int_conv c env w =
    with_session (with_call Get_op
      (match table w !! Param c "id" with
       | None => Normal (HTTPError 404 "User not found")
       | Some item =>
           match item_user int_conv item with
           | Some u => Normal (Wrote {| status := 200; body := Some (marshal_User u) |})
           | None => Panicked nil_deref
           end
       end, record_call "GetItem" w)).
Proof.
  unfold with_session, with_call.
  destruct (session_err env) as [se|] eqn:Hs.
  - exact (handler_no_session int_conv Get_op c se env w Hs).
  - destruct (store_err env) as [ce|] eqn:Hc.
    + apply (handler_store_down int_conv Get_op c ce env w Hs Hc).
      intros e _ [H|H]; discriminate H.
    + by apply getUser_run.
Qed.

Lemma createUser_cases :
  createUser c env w =
    with_session
      match req_body c with
      | Undecodable _ => (Normal (HTTPError 400 "Invalid request payload"), w)
      | Decodes u =>
          with_call Create_op
            (Normal (Wrote {| status := 201; body := Some (marshal_User u) |}),
             set_table (<[ID u := item_of_user u]> (table w)) (record_call "PutItem" w))
      end.
Proof.
  unfold with_session, with_call.
  destruct (session_err env) as [se|] eqn:Hs.
  - exact (handler_no_session (fun _ => 0) Create_op c se env w Hs).
  - destruct (req_body c) as [e|u] eqn:Hb.
    + by apply (createUser_bad_body c e).
    + destruct (store_err env) as [ce|] eqn:Hc.
      * apply (handler_store_down (fun _ => 0) Create_op c ce env w Hs Hc).
        intros e He _. rewrite Hb in He. discriminate He.
      * by apply createUser_run.
Qed.

Lemma updateUser_cases :
  updateUser c env w =
    with_session
      match req_body c with
      | Undecodable _ => (Normal (HTTPError 400 "Invalid request payload"), w)
      | Decodes u =>
          with_call Update_op
            (Normal (Wrote {| status := 200; body := Some (marshal_User u) |}),
             set_table
               (<[Param c "id" :=
                    updated_item u (default {[ "id" := attr_S (Param c "id") ]}
                                            (table w !! Param c "id"))]> (table w))
               (record_call "UpdateItem" w))
      end.
Proof.
  unfold with_session, with_call.
  destruct (session_err env) as [se|] eqn:Hs.
  - exact (handler_no_session (fun _ => 0) Update_op c se env w Hs).
  - destruct (req_body c) as [e|u] eqn:Hb.
    + by apply (updateUser_bad_body c e).
    + destruct (store_err env) as [ce|] eqn:Hc.
      * apply (handler_store_down (fun _ => 0) Update_op c ce env w Hs Hc).
        intros e He _. rewrite Hb in He. discriminate He.
      * by apply updateUser_run.
Qed.

Lemma deleteUser_cases :
  deleteUser c env w =
    with_session (with_call Delete_op
      (Normal (Wrote {| status := 204; body := None |}),
       set_table (delete (Param c "id") (table w)) (record_call "DeleteItem" w))).
Proof.
  unfold with_session, with_call.
  destruct (session_err env) as [se|] eqn:Hs.
  - exact (handler_no_session (fun _ => 0) Delete_op c se env w Hs).
  - destruct (store_err env) as [ce|] eqn:Hc.
    + apply (handler_store_down (fun _ => 0) Delete_op c ce env w Hs Hc).
      intros e _ [H|H]; discriminate H.
    + by apply deleteUser_run.
Qed.

End Cases.

(** A request of one of the five routes goes through the stack of
    [main]. *)
Lemma ServeHTTP_through (int_conv : string -> Z) (op : Operation) (id : string)
    (b : Body) (env : Env) (w : World) :
  ServeHTTP int_conv (context_of op id b) env w =
    through_stack (context_of op id b)
      (handler_of int_conv op (context_of op id b) env w).
Proof.
  destruct (handler_of int_conv op (context_of op id b) env w)
    as [[r|v|code] w'] eqn:Hh; cbn [through_stack].
  - by apply ServeHTTP_normal.
  - by apply (ServeHTTP_panic _ _ _ _ _ _ _ v).
  - by apply ServeHTTP_exit.
Qed.

(** Every case of a request of one of the five routes: the handler's
    equation, then the surroundings, the body and what the table holds. *)
Ltac request_cases :=
  rewrite ServeHTTP_through;
  match goal with
  | |- context [handler_of _ ?op _ _ _] => tryif is_var op then destruct op else idtac
  end;
  cbn [handler_of context_of];
  first [ rewrite getUsers_cases | rewrite getUser_cases | rewrite createUser_cases
        | rewrite updateUser_cases | rewrite deleteUser_cases ];
  cbv zeta;
  repeat match goal with
         | |- context [match session_err ?e with _ => _ end] =>
             destruct (session_err e) eqn:?
         | |- context [match store_err ?e with _ => _ end] =>
             destruct (store_err e) eqn:?
         | |- context [match req_body ?c with _ => _ end] =>
             destruct (req_body c) eqn:?
         | |- context [match items_users ?f ?l ?a with _ => _ end] =>
             destruct (items_users f l a) eqn:?
         | |- context [match item_user ?f ?i with _ => _ end] =>
             destruct (item_user f i) eqn:?
         | |- context [match table ?w !! ?k with _ => _ end] =>
             destruct (table w !! k) eqn:?
         end;
  cbn [through_stack fst snd DefaultHTTPErrorHandler status internal_error
       answered access_line log_line record_call set_table
       table calls stderr stdout access].

(** ** What a request leaves alone *)

(** X4.  List and Get never write: in any surroundings, with any table,
    and also when the handler panics or the process ends, the table after
    the request is the table before it. *)
Theorem reads_never_write (int_conv : string -> Z) (id : string) (env : Env) (w : World) :
  table (ServeHTTP int_conv GET_users env w).2 = table w /\
  table (ServeHTTP int_conv (GET_user id) env w).2 = table w.
Proof.
  split.
  - change GET_users with (context_of List_op "" no_body).
    request_cases; reflexivity.
  - change (GET_user id) with (context_of Get_op id no_body).
    request_cases; reflexivity.
Qed.

(** X5.  A request touches at most one key of the table: a Create the id
    of its body, an Update and a Delete the path id.  In any
    surroundings, whatever the table holds under every other key is held
    there after the request. *)
Theorem request_touches_own_key (int_conv : string -> Z) (op : Operation)
    (id : string) (b : Body) (env : Env) (w : World) (k : string) :
  written_key op id b <> Some k ->
  table (ServeHTTP int_conv (context_of op id b) env w).2 !! k = table w !! k.
Proof.
  intros Hk.
  request_cases; try reflexivity.
  - cbn [POST_users req_body] in *. subst b.
    apply lookup_insert_ne. intros Heq. apply Hk. cbn. by rewrite Heq.
  - cbn [PUT_user req_body] in *. subst b. rewrite Param_PUT_user.
    apply lookup_insert_ne. intros ->. apply Hk. reflexivity.
  - rewrite Param_DELETE_user. apply lookup_delete_ne.
    intros ->. apply Hk. reflexivity.
Qed.

Lemma request_touches_own_key_witness :
  let w := set_table {[ "1" := item_of_user {| ID := "1"; Name := "Alice"; Age := 30 |} ]}
                     empty_world in
  written_key Delete_op "2" no_body <> Some "1" /\
  table (ServeHTTP Atoi (context_of Delete_op "2" no_body) healthy w).2 !! "1"
    = table w !! "1".
Proof.
  intros w.
  assert (H : written_key Delete_op "2" no_body <> Some "1") by discriminate.
  split; [exact H|].
  exact (request_touches_own_key Atoi Delete_op "2" no_body healthy w "1" H).
Defined.

(** X6.  A request sends at most one operation to the table service, the
    one of its route: exactly one when the session is built and, for a
    Create or an Update, the body decodes; none otherwise. *)
Theorem one_call_per_request (int_conv : string -> Z) (op : Operation)
    (id : string) (b : Body) (env : Env) (w : World) :
  calls (ServeHTTP int_conv (context_of op id b) env w).2 =
    calls w ++ (if call_sent op b env then [call_name op] else []).
Proof.
  unfold call_sent.
  request_cases; cbn [POST_users PUT_user req_body] in *; subst;
    repeat match goal with H : session_err _ = _ |- _ => rewrite H end;
    cbn [call_name]; by rewrite ?app_nil_r.
Qed.

(** ** What a request is answered with *)

(** X7.  As long as the session is built, every request of the five
    routes is answered, whatever the table service does and whatever the
    table holds, and the status is one of those of its operation: 200 or
    500 for List, 200, 404 or 500 for Get, 201, 400 or 500 for Create,
    200, 400 or 500 for Update, 204 or 500 for Delete. *)
Theorem answered_with_status_of_operation (int_conv : string -> Z)
    (op : Operation) (id : string) (b : Body) (env : Env) (w : World) :
  session_err env = None ->
  exists (r : Response) (w' : World),
    ServeHTTP int_conv (context_of op id b) env w = (Normal r, w') /\
    status r ∈ statuses_of op.
Proof.
  intros Hs.
  request_cases; try congruence;
    (eexists; eexists; split; [reflexivity|]); cbn [statuses_of]; set_solver.
Qed.

Lemma answered_with_status_of_operation_witness :
  session_err (store_down "ProvisionedThroughputExceededException") = None /\
  exists (r : Response) (w' : World),
    ServeHTTP Atoi (context_of Delete_op "1" no_body)
              (store_down "ProvisionedThroughputExceededException") empty_world
      = (Normal r, w') /\
    status r ∈ statuses_of Delete_op.
Proof.
  split; [reflexivity|].
  apply (answered_with_status_of_operation Atoi Delete_op "1" no_body
           (store_down "ProvisionedThroughputExceededException") empty_world).
  reflexivity.
Defined.

(** X8.  The logging middleware is outside the recovery middleware, so it
    sees what the client is sent: every request that is answered leaves
    exactly one access line, with the method, the route and the status of
    the response, also when that response is the 500 of a caught panic or
    the rendering of an error the handler returned; a request the process
    ends on leaves none. *)
Theorem one_access_line_per_response (int_conv : string -> Z) (op : Operation)
    (id : string) (b : Body) (env : Env) (w : World) :
  let c := context_of op id b in
  access (ServeHTTP int_conv c env w).2 =
    access w ++ match (ServeHTTP int_conv c env w).1 with
                | Normal r => [(ctx_method c, ctx_path c, status r)]
                | _ => []
                end.
Proof.
  intros c. unfold c.
  request_cases; try reflexivity; by rewrite app_nil_r.
Qed.

(** ** The process under load *)

Lemma routed_request_answered (int_conv : string -> Z) (c : Context)
    (env : Env) (w : World) :
  routed c -> session_err env = None ->
  exists (r : Response) (w' : World), ServeHTTP int_conv c env w = (Normal r, w').
Proof.
  intros (op & id & b & ->) Hs.
  destruct (ServeHTTP int_conv (context_of op id b) env w) as [o w'] eqn:Hserve.
  revert Hserve. request_cases; try congruence; intros [= <- <-]; eauto.
Qed.

(** X9.  Only a session that cannot be built ends the process: as long as
    every session is built, any sequence of requests of the five routes
    is answered request by request, one response each, and the process is
    still running at the end, whatever errors the table service returned
    and whatever panics the handlers raised on the way. *)
Theorem serving_goes_on (int_conv : string -> Z) (reqs : list (Env * Context))
    (w : World) :
  Forall (fun r => session_err r.1 = None /\ routed r.2) reqs ->
  exists (rs : list Response) (w' : World),
    main int_conv reqs w = (Some <$> rs, Running w') /\
    length rs = length reqs.
Proof.
  unfold main. generalize (print_line "Server started on port 8000" w).
  clear w. intros w Hall. revert w.
  induction Hall as [|[env c] reqs [Hs Hr] _ IH]; intros w.
  - exists [], w. split; reflexivity.
  - destruct (routed_request_answered int_conv c env w Hr Hs) as (r & w1 & Hserve).
    destruct (IH w1) as (rs & w' & Hrest & Hlen).
    exists (r :: rs), w'. split.
    + rewrite (serve_cons_normal _ _ _ _ _ _ _ Hserve), Hrest. reflexivity.
    + cbn [length]. by rewrite Hlen.
Qed.

Lemma serving_goes_on_witness :
  let w := set_table {[ "1" := {[ "id" := attr_S "1" ]} ]} empty_world in
  let reqs := [(healthy, GET_user "1"); (store_down "timeout", GET_users);
               (healthy, POST_users (Undecodable "unexpected EOF"))] in
  Forall (fun r => session_err r.1 = None /\ routed r.2) reqs /\
  exists (rs : list Response) (w' : World),
    main Atoi reqs w = (Some <$> rs, Running w') /\
    length rs = length reqs.
Proof.
  intros w reqs.
  assert (Hall : Forall (fun r => session_err r.1 = None /\ routed r.2) reqs).
  { repeat constructor.
    - by exists Get_op, "1", no_body.
    - by exists List_op, "", no_body.
    - by exists Create_op, "", (Undecodable "unexpected EOF"). }
  split; [exact Hall|].
  exact (serving_goes_on Atoi reqs w Hall).
Defined.

(** ** List on a table of user records *)

Lemma item_user_Some (int_conv : string -> Z) (item : Item) :
  user_record item -> is_Some (item_user int_conv item).
Proof.
  intros ([i Hi] & [n Hn] & [a Ha]). unfold item_user. rewrite Hi, Hn, Ha. eauto.
Qed.

(** On user records the loop appends the record of every item, in the
    order of the items. *)
Lemma items_users_all (int_conv : string -> Z) (items : list Item) (acc : slice User) :
  Forall (fun item => is_Some (item_user int_conv item)) items ->
  items_users int_conv items acc =
    Some (match items with
          | [] => acc
          | _ :: _ => Some (default [] acc ++ omap (item_user int_conv) items)
          end).
Proof.
  intros Hall. revert acc.
  induction Hall as [|item items [u Hu] Hall IH]; intros acc; [reflexivity|].
  cbn [items_users omap list_omap]. rewrite Hu. rewrite IH.
  destruct items as [|item' items]; destruct acc as [l|]; cbn; try reflexivity.
  - by rewrite <- app_assoc.
Qed.

Lemma length_omap_all {A B : Type} (f : A -> option B) (l : list A) :
  Forall (fun x => is_Some (f x)) l -> length (omap f l) = length l.
Proof.
  induction 1 as [|x l [y Hy] _ IH]; [reflexivity|].
  cbn [omap list_omap]. rewrite Hy. cbn [length]. by rewrite IH.
Qed.

(** X10.  When the table holds user records only, and at least one, List
    answers 200 with an array that has exactly one record for every item
    of the table: as many records as the table has items, and a record is
    in the array exactly when it is the record of an item held under some
    key. *)
Theorem list_has_a_record_per_item (int_conv : string -> Z) (w : World) :
  table w <> ∅ ->
  (forall (k : string) (item : Item), table w !! k = Some item -> user_record item) ->
  exists users : list User,
    ServeHTTP int_conv GET_users healthy w =
      (Normal {| status := 200; body := Some (JArr (map marshal_User users)) |},
       answered GET_users 200 (record_call "Scan" w)) /\
    length users = size (table w) /\
    (forall u : User,
       u ∈ users <->
       exists (k : string) (item : Item),
         table w !! k = Some item /\ item_user int_conv item = Some u).
Proof.
  intros Hne Hrec.
  set (items := (map_to_list (table w)).*2).
  assert (Hall : Forall (fun item => is_Some (item_user int_conv item)) items).
  { apply Forall_forall. intros item Hin.
    apply list_elem_of_fmap in Hin as ([k item'] & -> & Hin).
    apply elem_of_map_to_list in Hin. by apply item_user_Some, (Hrec k). }
  exists (omap (item_user int_conv) items). split; [|split].
  - pose proof (getUsers_run int_conv GET_users healthy w eq_refl eq_refl) as Hlist.
    fold items in Hlist. rewrite (items_users_all _ _ _ Hall) in Hlist.
    destruct items as [|item items'] eqn:Hitems.
    + apply fmap_nil_inv, map_to_list_empty_iff in Hitems. by destruct Hne.
    + exact (ServeHTTP_normal int_conv List_op "" no_body healthy w _ _ Hlist).
  - rewrite (length_omap_all _ _ Hall). unfold items.
    by rewrite length_fmap, length_map_to_list.
  - intros u. rewrite list_elem_of_omap. split.
    + intros (item & Hin & Hu).
      apply list_elem_of_fmap in Hin as ([k item'] & -> & Hin).
      apply elem_of_map_to_list in Hin. by exists k, item'.
    + intros (k & item & Hk & Hu). exists item. split; [|exact Hu].
      by apply (scanned_item _ k).
Qed.

Lemma list_has_a_record_per_item_witness :
  let w := set_table {[ "1" := item_of_user {| ID := "1"; Name := "Alice"; Age := 30 |} ]}
                     empty_world in
  table w <> ∅ /\
  (forall (k : string) (item : Item), table w !! k = Some item -> user_record item) /\
  exists users : list User,
    ServeHTTP Atoi GET_users healthy w =
      (Normal {| status := 200; body := Some (JArr (map marshal_User users)) |},
       answered GET_users 200 (record_call "Scan" w)) /\
    length users = size (table w) /\
    (forall u : User,
       u ∈ users <->
       exists (k : string) (item : Item),
         table w !! k = Some item /\ item_user Atoi item = Some u).
Proof.
  intros w.
  assert (Hne : table w <> ∅).
  { intros Hempty. apply (f_equal (fun t => t !! "1")) in Hempty.
    cbn [table w set_table] in Hempty.
    rewrite lookup_singleton_eq, lookup_empty in Hempty. discriminate Hempty. }
  assert (Hrec : forall (k : string) (item : Item),
             table w !! k = Some item -> user_record item).
  { intros k item Hk. cbn [table w set_table] in Hk.
    apply lookup_singleton_Some in Hk as [_ <-].
    unfold user_record.
    pose proof (item_user_item_of_user Atoi {| ID := "1"; Name := "Alice"; Age := 30 |}) as Hu.
    unfold item_user in Hu.
    destruct (text_S _ "id"); [|discriminate]. destruct (text_S _ "name"); [|discriminate].
    destruct (text_N _ "age"); [|discriminate]. eauto. }
  split; [exact Hne|]. split; [exact Hrec|].
  exact (list_has_a_record_per_item Atoi w Hne Hrec).
Defined.

(** ** Requests one after the other *)

(** The steps of a sequence, each with the table it leaves. *)
Lemma POST_step (int_conv : string -> Z) (u : User) (w : World) :
  exists w1 : World,
    ServeHTTP int_conv (POST_users (Decodes u)) healthy w =
      (Normal {| status := 201; body := Some (marshal_User u) |}, w1) /\
    table w1 = <[ID u := item_of_user u]> (table w).
Proof.
  pose proof (createUser_run (POST_users (Decodes u)) u healthy w
                eq_refl eq_refl eq_refl) as Hpost.
  apply (ServeHTTP_normal int_conv Create_op "" (Decodes u)) in Hpost.
  eexists. split; [exact Hpost|reflexivity].
Qed.

Lemma PUT_step (int_conv : string -> Z) (id : string) (u : User) (w : World) :
  exists w1 : World,
    ServeHTTP int_conv (PUT_user id (Decodes u)) healthy w =
      (Normal {| status := 200; body := Some (marshal_User u) |}, w1) /\
    table w1 =
      <[id := updated_item u (default {[ "id" := attr_S id ]} (table w !! id))]>
        (table w).
Proof.
  pose proof (updateUser_run (PUT_user id (Decodes u)) u healthy w
                eq_refl eq_refl eq_refl) as Hput.
  rewrite Param_PUT_user in Hput.
  apply (ServeHTTP_normal int_conv Update_op id (Decodes u)) in Hput.
  eexists. split; [exact Hput|reflexivity].
Qed.

Lemma DELETE_step (int_conv : string -> Z) (id : string) (w : World) :
  exists w1 : World,
    ServeHTTP int_conv (DELETE_user id) healthy w =
      (Normal {| status := 204; body := None |}, w1) /\
    table w1 = delete id (table w).
Proof.
  pose proof (deleteUser_run (DELETE_user id) healthy w eq_refl eq_refl) as Hdel.
  rewrite Param_DELETE_user in Hdel.
  apply (ServeHTTP_normal int_conv Delete_op id no_body) in Hdel.
  eexists. split; [exact Hdel|reflexivity].
Qed.

Lemma GET_step_held (int_conv : string -> Z) (id : string) (u : User) (w : World) :
  table w !! id = Some (item_of_user u) ->
  exists w1 : World,
    ServeHTTP int_conv (GET_user id) healthy w =
      (Normal {| status := 200;
                 body := Some (JObj [("id", JStr (ID u)); ("name", JStr (Name u));
                                     ("age", JNum (int_conv (Sprintf_d (Age u))))]) |},
       w1).
Proof.
  intros Hheld.
  pose proof (getUser_run int_conv (GET_user id) healthy w eq_refl eq_refl) as Hget.
  rewrite Param_GET_user, Hheld, item_user_item_of_user in Hget.
  apply (ServeHTTP_normal int_conv Get_op id no_body) in Hget.
  eexists. exact Hget.
Qed.

(** An Update on the item of [u] leaves the item of the user with the id
    of [u] and the name and age of the body; a second Update with the
    same body leaves the item as it is. *)
Lemma updated_item_of_user (u v : User) :
  updated_item v (item_of_user u) =
    item_of_user {| ID := ID u; Name := Name v; Age := Age v |}.
Proof.
  unfold updated_item, item_of_user; cbn [ID Name Age].
  rewrite <- !insert_empty.
  rewrite (insert_insert_ne _ "name" "id") by done.
  rewrite insert_insert_eq.
  rewrite (insert_insert_ne _ "age" "id") by done.
  rewrite (insert_insert_ne _ "age" "name") by done.
  by rewrite insert_insert_eq.
Qed.

Lemma updated_item_twice (u : User) (old : Item) :
  updated_item u (updated_item u old) = updated_item u old.
Proof.
  unfold updated_item.
  rewrite (insert_insert_ne _ "name" "age") by done.
  by rewrite !insert_insert_eq.
Qed.

(** X11.  Starting from an empty table, after Create of [a], Create of
    [b] with another id and Delete of the id of [a], List answers 200
    with an array of exactly one record, the one of [b] (its age being
    what the conversion [int(...)] makes of the stored text). *)
Theorem create_two_delete_one_then_list (int_conv : string -> Z)
    (a b : User) (w : World) :
  table w = ∅ -> ID a <> ID b ->
  exists w1 w2 w3 w4 : World,
    ServeHTTP int_conv (POST_users (Decodes a)) healthy w =
      (Normal {| status := 201; body := Some (marshal_User a) |}, w1) /\
    ServeHTTP int_conv (POST_users (Decodes b)) healthy w1 =
      (Normal {| status := 201; body := Some (marshal_User b) |}, w2) /\
    ServeHTTP int_conv (DELETE_user (ID a)) healthy w2 =
      (Normal {| status := 204; body := None |}, w3) /\
    ServeHTTP int_conv GET_users healthy w3 =
      (Normal {| status := 200;
                 body := Some (JArr [JObj [("id", JStr (ID b)); ("name", JStr (Name b));
                                           ("age", JNum (int_conv (Sprintf_d (Age b))))]]) |},
       w4).
Proof.
  intros Hempty Hne.
  destruct (POST_step int_conv a w) as (w1 & H1 & T1).
  destruct (POST_step int_conv b w1) as (w2 & H2 & T2).
  destruct (DELETE_step int_conv (ID a) w2) as (w3 & H3 & T3).
  exists w1, w2, w3. eexists. repeat (split; [eassumption|]).
  assert (Hleft : table w3 = {[ ID b := item_of_user b ]}).
  { rewrite T3, T2, T1, Hempty.
    rewrite delete_insert_ne by done.
    by rewrite delete_insert_eq, delete_empty, insert_empty. }
  pose proof (getUsers_run int_conv GET_users healthy w3 eq_refl eq_refl) as Hlist.
  rewrite Hleft, map_to_list_singleton in Hlist.
  cbn [fmap list_fmap snd items_users] in Hlist.
  rewrite item_user_item_of_user in Hlist.
  exact (ServeHTTP_normal int_conv List_op "" no_body healthy w3 _ _ Hlist).
Qed.

Lemma create_two_delete_one_then_list_witness :
  table empty_world = ∅ /\
  ID {| ID := "a"; Name := "Ann"; Age := 41 |} <> ID {| ID := "b"; Name := "Bob"; Age := 5 |} /\
  exists w1 w2 w3 w4 : World,
    ServeHTTP Atoi (POST_users (Decodes {| ID := "a"; Name := "Ann"; Age := 41 |}))
              healthy empty_world =
      (Normal {| status := 201;
                 body := Some (marshal_User {| ID := "a"; Name := "Ann"; Age := 41 |}) |},
       w1) /\
    ServeHTTP Atoi (POST_users (Decodes {| ID := "b"; Name := "Bob"; Age := 5 |}))
              healthy w1 =
      (Normal {| status := 201;
                 body := Some (marshal_User {| ID := "b"; Name := "Bob"; Age := 5 |}) |},
       w2) /\
    ServeHTTP Atoi (DELETE_user "a") healthy w2 =
      (Normal {| status := 204; body := None |}, w3) /\
    ServeHTTP Atoi GET_users healthy w3 =
      (Normal {| status := 200;
                 body := Some (JArr [JObj [("id", JStr "b"); ("name", JStr "Bob");
                                           ("age", JNum (Atoi (Sprintf_d 5)))]]) |},
       w4).
Proof.
  split; [reflexivity|]. split; [discriminate|].
  apply (create_two_delete_one_then_list Atoi
           {| ID := "a"; Name := "Ann"; Age := 41 |}
           {| ID := "b"; Name := "Bob"; Age := 5 |} empty_world);
    [reflexivity|discriminate].
Defined.

(** X12.  An Update that follows a Create on the id of the created record
    changes name and age and keeps the id: the table then holds under
    that id the item a Create with that id and the new name and age would
    write, and the Get that follows answers 200 with the original id and
    the new name (and, as age, what [int(...)] makes of the new text). *)
Theorem update_after_create_keeps_id (int_conv : string -> Z) (u v : User) (w : World) :
  exists w1 w2 w3 : World,
    ServeHTTP int_conv (POST_users (Decodes u)) healthy w =
      (Normal {| status := 201; body := Some (marshal_User u) |}, w1) /\
    ServeHTTP int_conv (PUT_user (ID u) (Decodes v)) healthy w1 =
      (Normal {| status := 200; body := Some (marshal_User v) |}, w2) /\
    table w2 !! ID u =
      Some (item_of_user {| ID := ID u; Name := Name v; Age := Age v |}) /\
    ServeHTTP int_conv (GET_user (ID u)) healthy w2 =
      (Normal {| status := 200;
                 body := Some (JObj [("id", JStr (ID u)); ("name", JStr (Name v));
                                     ("age", JNum (int_conv (Sprintf_d (Age v))))]) |},
       w3).
Proof.
  destruct (POST_step int_conv u w) as (w1 & H1 & T1).
  destruct (PUT_step int_conv (ID u) v w1) as (w2 & H2 & T2).
  assert (Hheld : table w2 !! ID u =
                  Some (item_of_user {| ID := ID u; Name := Name v; Age := Age v |})).
  { rewrite T2, T1, !lookup_insert_eq. cbn [default]. unfold Datatypes.id.
    by rewrite updated_item_of_user. }
  destruct (GET_step_held int_conv (ID u) _ w2 Hheld) as (w3 & H3).
  exists w1, w2, w3. repeat (split; [assumption|]). exact H3.
Qed.

(** X13.  Update is idempotent on the table: the same Update twice leaves
    the table the first one left, whatever was held under the id. *)
Theorem update_twice_is_update_once (int_conv : string -> Z)
    (id : string) (u : User) (w : World) :
  exists w1 w2 : World,
    ServeHTTP int_conv (PUT_user id (Decodes u)) healthy w =
      (Normal {| status := 200; body := Some (marshal_User u) |}, w1) /\
    ServeHTTP int_conv (PUT_user id (Decodes u)) healthy w1 =
      (Normal {| status := 200; body := Some (marshal_User u) |}, w2) /\
    table w2 = table w1.
Proof.
  destruct (PUT_step int_conv id u w) as (w1 & H1 & T1).
  destruct (PUT_step int_conv id u w1) as (w2 & H2 & T2).
  exists w1, w2. split; [assumption|]. split; [assumption|].
  rewrite T2, T1, lookup_insert_eq. cbn [default]. unfold Datatypes.id.
  by rewrite updated_item_twice, insert_insert_eq.
Qed.

(** X14.  A Create on an id the table does not hold, followed by a Delete
    of that id, leaves the table as it was before the two. *)
Theorem create_then_delete_restores (int_conv : string -> Z) (u : User) (w : World) :
  table w !! ID u = None ->
  exists w1 w2 : World,
    ServeHTTP int_conv (POST_users (Decodes u)) healthy w =
      (Normal {| status := 201; body := Some (marshal_User u) |}, w1) /\
    ServeHTTP int_conv (DELETE_user (ID u)) healthy w1 =
      (Normal {| status := 204; body := None |}, w2) /\
    table w2 = table w.
Proof.
  intros Hfree.
  destruct (POST_step int_conv u w) as (w1 & H1 & T1).
  destruct (DELETE_step int_conv (ID u) w1) as (w2 & H2 & T2).
  exists w1, w2. split; [assumption|]. split; [assumption|].
  rewrite T2, T1. by rewrite delete_insert_eq, delete_id.
Qed.

Lemma create_then_delete_restores_witness :
  table empty_world !! ID {| ID := "1"; Name := "Alice"; Age := 30 |} = None /\
  exists w1 w2 : World,
    ServeHTTP Atoi (POST_users (Decodes {| ID := "1"; Name := "Alice"; Age := 30 |}))
              healthy empty_world =
      (Normal {| status := 201;
                 body := Some (marshal_User {| ID := "1"; Name := "Alice"; Age := 30 |}) |},
       w1) /\
    ServeHTTP Atoi (DELETE_user (ID {| ID := "1"; Name := "Alice"; Age := 30 |}))
              healthy w1 =
      (Normal {| status := 204; body := None |}, w2) /\
    table w2 = table empty_world.
Proof.
  split; [apply lookup_empty|].
  apply (create_then_delete_restores Atoi
           {| ID := "1"; Name := "Alice"; Age := 30 |} empty_world).
  apply lookup_empty.
Defined.

(** ** The item of a body *)

(** X15.  Create stores a body without loss: two bodies that are written
    as the same item are the same body.  In particular the decimal text
    of the age determines the age. *)
Theorem item_of_user_determines_body (u v : User) :
  item_of_user u = item_of_user v -> u = v.
Proof.
  intros Heq.
  pose proof (f_equal (fun it => text_S it "id") Heq) as Hid.
  pose proof (f_equal (fun it => text_S it "name") Heq) as Hname.
  pose proof (f_equal (fun it => text_N it "age") Heq) as Hage.
  unfold text_S, text_N, item_of_user in Hid, Hname, Hage.
  rewrite !lookup_insert_eq in Hid.
  rewrite !(lookup_insert_ne _ "id" "name"), !lookup_insert_eq in Hname by done.
  rewrite !(lookup_insert_ne _ "id" "age"), !(lookup_insert_ne _ "name" "age"),
    !lookup_singleton_eq in Hage by done.
  cbn in Hid, Hname, Hage.
  injection Hid as Hid. injection Hname as Hname. injection Hage as Hage.
  apply (f_equal Atoi) in Hage. rewrite !Atoi_Sprintf_d in Hage.
  destruct u, v; cbn in *. congruence.
Qed.

Lemma item_of_user_determines_body_witness :
  item_of_user {| ID := "1"; Name := "Alice"; Age := 30 |}
    = item_of_user {| ID := "1"; Name := "Alice"; Age := 30 |} /\
  {| ID := "1"; Name := "Alice"; Age := 30 |} = {| ID := "1"; Name := "Alice"; Age := 30 |}.
Proof.
  split; [reflexivity|].
  apply (item_of_user_determines_body
           {| ID := "1"; Name := "Alice"; Age := 30 |}
           {| ID := "1"; Name := "Alice"; Age := 30 |}).
  reflexivity.
Defined.
